(** * BMI calculator (bmi_adv_python.py): model and verified properties

    The program is a Tk desktop application.  Its logic is a float formula
    ([BMIProcessor.calculate_bmi_process], [_calculate_in_thread]), a
    classification by thresholds ([get_bmi_category]), a JSON-backed history
    ([BMIHistory]) and two views of that history ([update_chart],
    [_display_history]).

    Conventions of the model:
    - Python [float] is IEEE binary64, Rocq's primitive [float]; [round(x, 2)]
      is computed on the exact binary value; [x ** 2] calls the libm, which
      is a parameter.
    - A Python exception is a [Raise] of the result type; the state the
      program mutates (widgets, the history file, started threads, queued Tk
      callbacks, the log) is threaded through a state-and-exception monad.
    - The history file is described by what [json.load] makes of its text;
      [json.dump] followed by [json.load] gives back the value dumped.
    - A started thread runs to its end in one step; the interleaving of the
      statements of two threads is not modelled.
    - Widget layout, styles, the reference lines and the legend of the chart
      are left out. *)

From Stdlib Require Import ZArith Floats List String Ascii Lia Bool.
Import ListNotations.

Set Warnings "-inexact-float,-register-all".

Local Open Scope string_scope.

(** ** Python exceptions *)

Inductive exn : Type :=
| ValueError
| ZeroDivisionError
| OverflowError
| AttributeError
| TypeError
| KeyError
| OSError
| JSONDecodeError.

Inductive result (A : Type) : Type :=
| Ok (a : A)
| Raise (e : exn).

Arguments Ok {A} a.
Arguments Raise {A} e.

Definition rbind {A B : Type} (r : result A) (k : A -> result B) : result B :=
  match r with
  | Ok a => k a
  | Raise e => Raise e
  end.

Declare Scope result_scope.
Delimit Scope result_scope with result.
Notation "'let?' x ':=' r 'in' k" := (rbind r (fun x => k))
  (at level 61, x name, r at next level, right associativity) : result_scope.

(** ** Python floats *)

Module PyFloat.

Local Open Scope Z_scope.

(** Nearest integer to [n / d] ([d > 0]), ties to the even one. *)
Definition half_even (n d : Z) : Z :=
  let q := n / d in
  match 2 * (n mod d) ?= d with
  | Lt => q
  | Gt => q + 1
  | Eq => if Z.even q then q else q + 1
  end.

(** Nearest integer to [100 * m * 2^e], ties to even: the digits
    [float.__round__] obtains from the exact binary value. *)
Definition hundredths (m : positive) (e : Z) : Z :=
  if 0 <=? e then 100 * Zpos m * 2 ^ e
  else half_even (100 * Zpos m) (2 ^ (- e)).

(** [round(x, 2)] on a float: the exact value of [x] is rounded half-even
    to two decimals and that decimal is converted back to the nearest
    double; infinities and NaN round to themselves. *)
Definition round2 (x : float) : float :=
  match Prim2SF x with
  | S754_finite s m e =>
      match hundredths m e with
      | Zpos n =>
          SF2Prim (SFdiv prec emax (S754_finite s n 0) (S754_finite false 100 0))
      | _ => SF2Prim (S754_zero s)
      end
  | _ => x
  end.

Local Open Scope float_scope.

(** [a / b] on floats: a zero divisor raises. *)
Definition truediv (a b : float) : result float :=
  if b =? 0 then Raise ZeroDivisionError else Ok (a / b).

Section Pow.

(** C's [pow(x, 2.0)] of the platform's libm, which [float.__pow__]
    calls once the special cases are out of the way. *)
Variable libm_pow2 : float -> float.

(** [x ** 2] on a float, after [float_pow]: NaN, infinities, zeros and
    +-1 are answered directly; an infinite result of libm on a finite
    base raises OverflowError; underflow to zero is not an error. *)
Definition pow2 (x : float) : result float :=
  if is_nan x then Ok x
  else if is_infinity x then Ok (abs x)
  else if x =? 0 then Ok 0
  else
    let iv := if x <? 0 then - x else x in
    if iv =? 1 then Ok 1
    else
      let ix := libm_pow2 iv in
      if is_infinity ix then Raise OverflowError else Ok ix.

(** What the libm documents for [pow]: the result is the correctly
    rounded square or one of its two neighbours. *)
Definition pow2_within_ulp : Prop :=
  forall x : float,
    libm_pow2 x = x * x \/
    libm_pow2 x = next_down (x * x) \/
    libm_pow2 x = next_up (x * x).

(** What C fixes for [pow] whatever the libm (Annex F): [pow(+0, 2)] is
    [+0], [pow(1, y)] is [1] and [pow(+inf, 2)] is [+inf]. *)
Definition pow2_exact_cases : Prop :=
  libm_pow2 0 = 0 /\ libm_pow2 1 = 1 /\ libm_pow2 infinity = infinity.

End Pow.

End PyFloat.

(** ** The calculator *)

Section Calculator.

Variable libm_pow2 : float -> float.

Local Open Scope float_scope.
Local Open Scope result_scope.

(** [BMIProcessor.calculate_bmi_process]: the body of the [try]. *)
Definition calculate_bmi_process_try (weight height : float) : result float :=
  let? height_in_meters := PyFloat.truediv height 100 in
  let? squared := PyFloat.pow2 libm_pow2 height_in_meters in
  let? bmi := PyFloat.truediv weight squared in
  Ok (PyFloat.round2 bmi).

(** [BMIProcessor.calculate_bmi_process]: an exception is logged and the
    function returns [None]. *)
Definition calculate_bmi_process (weight height : float) : option float :=
  match calculate_bmi_process_try weight height with
  | Ok b => Some b
  | Raise _ => None
  end.

(** The formula in the words of the specification,
    [round(weight / (height/100)^2, 2)], evaluated as a Python expression. *)
Definition spec_bmi (weight height : float) : result float :=
  let? metres := PyFloat.truediv height 100 in
  let? square := PyFloat.pow2 libm_pow2 metres in
  let? quotient := PyFloat.truediv weight square in
  Ok (PyFloat.round2 quotient).

End Calculator.

Definition newline : string := String (ascii_of_nat 10) EmptyString.

Definition bytes (codes : list nat) : string :=
  fold_right (fun c s => String (ascii_of_nat c) s) EmptyString codes.

Definition sign_caution : string := bytes [195; 162; 197; 161; 194; 160; 195; 175; 194; 184].
Definition sign_healthy : string := bytes [195; 162; 197; 147; 226; 128; 166].
Definition sign_alarm : string := bytes [195; 176; 197; 184; 197; 161; 194; 168].

Local Open Scope float_scope.

(** [get_bmi_category]: (category, colour, advisory message). *)
Definition get_bmi_category (bmi : float) : string * string * string :=
  if bmi <? 18.5 then
    ("Underweight", "lightblue",
     sign_caution ++ " UNDERWEIGHT: You are below the healthy weight range."
       ++ newline ++ "Recommendation: Consider consulting a nutritionist for healthy weight gain.")
  else if (18.5 <=? bmi) && (bmi <? 25) then
    ("Normal Weight", "green",
     sign_healthy ++ " NORMAL WEIGHT: Congratulations! You are in the healthy weight range."
       ++ newline ++ "Recommendation: Maintain your current lifestyle with balanced diet and regular exercise.")
  else if (25 <=? bmi) && (bmi <? 30) then
    ("Overweight", "orange",
     sign_caution ++ " OVERWEIGHT: You are above the healthy weight range."
       ++ newline ++ "Recommendation: Consider increasing physical activity and adjusting your diet.")
  else if (30 <=? bmi) && (bmi <? 35) then
    ("Obese", "red",
     sign_alarm ++ " OBESE: Your weight may pose health risks."
       ++ newline ++ "Recommendation: Consult with a healthcare provider for weight management guidance.")
  else
    ("Severely Obese", "darkred",
     sign_alarm ++ " SEVERELY OBESE: Immediate medical attention recommended."
       ++ newline ++ "Recommendation: Please consult with a healthcare professional for comprehensive weight management.").

Definition category_of (bmi : float) : string := fst (fst (get_bmi_category bmi)).

(** ** Float comparisons through their specification *)

Section FloatOrder.

Local Open Scope Z_scope.

Lemma not_nan_spec (x : float) : is_nan x = false -> Prim2SF x <> S754_nan.
Proof.
  unfold is_nan. rewrite FloatAxioms.eqb_spec. intros H E. rewrite E in H. discriminate H.
Qed.

Lemma SFcompare_antisym (x y : spec_float) :
  SFcompare y x = option_map CompOpp (SFcompare x y).
Proof.
  destruct x as [sx | sx | | sx mx ex], y as [sy | sy | | sy my ey];
    try reflexivity;
    try (destruct sx; reflexivity);
    try (destruct sy; reflexivity);
    try (destruct sx, sy; reflexivity).
  destruct sx, sy; try reflexivity; cbn [SFcompare option_map];
    rewrite (Z.compare_antisym ex ey);
    destruct (ex ?= ey); cbn [CompOpp]; try reflexivity;
    change (Pos.compare_cont Eq my mx) with (Pos.compare my mx);
    change (Pos.compare_cont Eq mx my) with (Pos.compare mx my);
    rewrite (Pos.compare_antisym mx my); reflexivity.
Qed.

Lemma SFleb_negb_SFltb (x y : spec_float) :
  x <> S754_nan -> y <> S754_nan -> SFleb y x = negb (SFltb x y).
Proof.
  intros Hx Hy. unfold SFleb, SFltb. rewrite (SFcompare_antisym x y).
  destruct (SFcompare x y) as [[ | | ] | ] eqn:E; try reflexivity.
  destruct x, y; try congruence; cbn in E; try discriminate;
    destruct s; discriminate.
Qed.

End FloatOrder.

Local Open Scope float_scope.

Lemma leb_negb_ltb (x c : float) :
  is_nan x = false -> is_nan c = false -> (c <=? x) = negb (x <? c).
Proof.
  intros Hx Hc. rewrite leb_spec, ltb_spec.
  apply SFleb_negb_SFltb; now apply not_nan_spec.
Qed.

(** [x < a] and [a < b] give [x < b], for two float constants compared by
    computation. *)
Lemma SFltb_below (x a b : spec_float) :
  SFltb a b = true -> SFltb x a = true -> SFltb x b = true.
Proof.
  unfold SFltb.
  destruct x as [sx | sx | | sx mx ex], a as [sa | sa | | sa ma ea],
    b as [sb | sb | | sb mb eb]; cbn [SFcompare];
    try discriminate; try (intros _ _; reflexivity);
    try (destruct sx, sa, sb; cbn; congruence).
  destruct sx, sa, sb; try discriminate; try (intros _ _; reflexivity).
  - destruct (Z.compare_spec ea eb), (Z.compare_spec ex ea), (Z.compare_spec ex eb);
      try discriminate; try lia; try (intros _ _; reflexivity); subst;
      change (Pos.compare_cont Eq ?p ?q) with (Pos.compare p q);
      destruct (Pos.compare_spec ma mb), (Pos.compare_spec mx ma), (Pos.compare_spec mx mb);
      cbn; try discriminate; try lia; intros _ _; reflexivity.
  - destruct (Z.compare_spec ea eb), (Z.compare_spec ex ea), (Z.compare_spec ex eb);
      try discriminate; try lia; try (intros _ _; reflexivity); subst;
      change (Pos.compare_cont Eq ?p ?q) with (Pos.compare p q);
      destruct (Pos.compare_spec ma mb), (Pos.compare_spec mx ma), (Pos.compare_spec mx mb);
      cbn; try discriminate; try lia; intros _ _; reflexivity.
Qed.

Lemma ltb_below (x a b : float) :
  (a <? b) = true -> (x <? a) = true -> (x <? b) = true.
Proof. rewrite !ltb_spec. apply SFltb_below. Qed.

(** The chain of [elif]s of [get_bmi_category], with the messages and
    colours dropped. *)
Lemma category_of_eq (bmi : float) :
  category_of bmi =
    if bmi <? 18.5 then "Underweight"
    else if (18.5 <=? bmi) && (bmi <? 25) then "Normal Weight"
    else if (25 <=? bmi) && (bmi <? 30) then "Overweight"
    else if (30 <=? bmi) && (bmi <? 35) then "Obese"
    else "Severely Obese".
Proof.
  unfold category_of, get_bmi_category.
  destruct (bmi <? 18.5); [reflexivity|].
  destruct ((18.5 <=? bmi) && (bmi <? 25)); [reflexivity|].
  destruct ((25 <=? bmi) && (bmi <? 30)); [reflexivity|].
  destruct ((30 <=? bmi) && (bmi <? 35)); reflexivity.
Qed.

(** C2: on every float that is a number, the classification is the
    partition of the line at 18.5, 25, 30 and 35 into the five categories,
    each breakpoint belonging to the band above it. *)
Theorem category_partition (bmi : float) :
  is_nan bmi = false ->
  (category_of bmi = "Underweight" <-> (bmi <? 18.5) = true) /\
  (category_of bmi = "Normal Weight" <-> (18.5 <=? bmi) && (bmi <? 25) = true) /\
  (category_of bmi = "Overweight" <-> (25 <=? bmi) && (bmi <? 30) = true) /\
  (category_of bmi = "Obese" <-> (30 <=? bmi) && (bmi <? 35) = true) /\
  (category_of bmi = "Severely Obese" <-> (35 <=? bmi) = true) /\
  category_of 18.5 = "Normal Weight" /\
  category_of 25 = "Overweight" /\
  category_of 30 = "Obese" /\
  category_of 35 = "Severely Obese".
Proof.
  intros Hnan.
  rewrite !category_of_eq.
  rewrite !(leb_negb_ltb bmi) by (assumption || reflexivity).
  pose proof (ltb_below bmi 18.5 25 eq_refl) as H1.
  pose proof (ltb_below bmi 25 30 eq_refl) as H2.
  pose proof (ltb_below bmi 30 35 eq_refl) as H3.
  destruct (bmi <? 18.5), (bmi <? 25), (bmi <? 30), (bmi <? 35);
    try (discriminate (H1 eq_refl)); try (discriminate (H2 eq_refl));
    try (discriminate (H3 eq_refl)); clear H1 H2 H3;
    cbn [negb andb];
    repeat split; intros; try reflexivity; discriminate.
Qed.

(** On NaN every comparison is false and the last branch is taken. *)
Lemma category_of_nan : category_of nan = "Severely Obese".
Proof. reflexivity. Qed.

(** ** Python values held by the history *)

Inductive pyval : Type :=
| PNone
| PBool (b : bool)
| PInt (z : Z)
| PFloat (f : float)
| PStr (s : string)
| PList (items : list pyval)
| PDict (entries : list (string * pyval)).

Module Py.

Local Open Scope result_scope.

(** Truth value of an object, as [if history:] tests it. *)
Definition truthy (v : pyval) : bool :=
  match v with
  | PNone => false
  | PBool b => b
  | PInt z => negb (Z.eqb z 0)
  | PFloat f => negb (PrimFloat.eqb f 0)
  | PStr s => negb (String.eqb s "")
  | PList items => match items with [] => false | _ => true end
  | PDict entries => match entries with [] => false | _ => true end
  end.

Fixpoint lookup (key : string) (entries : list (string * pyval)) : option pyval :=
  match entries with
  | [] => None
  | (k, v) :: rest => if String.eqb k key then Some v else lookup key rest
  end.

(** [v[key]] with a string key. *)
Definition getitem (v : pyval) (key : string) : result pyval :=
  match v with
  | PDict entries =>
      match lookup key entries with
      | Some x => Ok x
      | None => Raise KeyError
      end
  | _ => Raise TypeError
  end.

(** [l[-n:]] on a list: the last [n] elements, all of them when there are
    fewer. *)
Definition last_n {A : Type} (n : nat) (l : list A) : list A :=
  skipn (List.length l - n) l.

Fixpoint string_chars (s : string) : list pyval :=
  match s with
  | EmptyString => []
  | String c rest => PStr (String c EmptyString) :: string_chars rest
  end.

Fixpoint string_skip (n : nat) (s : string) : string :=
  match n, s with
  | S k, String _ rest => string_skip k rest
  | _, _ => s
  end.

(** [v[-n:]]: lists and strings can be sliced. *)
Definition slice_last (n : nat) (v : pyval) : result pyval :=
  match v with
  | PList items => Ok (PList (last_n n items))
  | PStr s => Ok (PStr (string_skip (String.length s - n) s))
  | _ => Raise TypeError
  end.

(** The elements a [for] loop or a comprehension draws from [v]. *)
Definition iterate (v : pyval) : result (list pyval) :=
  match v with
  | PList items => Ok items
  | PStr s => Ok (string_chars s)
  | PDict entries => Ok (map (fun kv => PStr (fst kv)) entries)
  | _ => Raise TypeError
  end.

(** [v.append(x)]: only lists have the method. *)
Definition append (v x : pyval) : result pyval :=
  match v with
  | PList items => Ok (PList (items ++ [x]))
  | _ => Raise AttributeError
  end.

(** A list comprehension [[f(x) for x in l]]: it stops at the first
    exception. *)
Fixpoint comprehension {A B : Type} (f : A -> result B) (l : list A) : result (list B) :=
  match l with
  | [] => Ok []
  | x :: rest =>
      let? y := f x in
      let? ys := comprehension f rest in
      Ok (y :: ys)
  end.

End Py.

(** ** The history file *)

(** What [json.load] makes of a file's text. *)
Inductive file_text : Type :=
| Blank
| Garbled
| Holds (v : pyval).

Record file : Type := File {
  readable : bool;
  writable : bool;
  text : file_text
}.

(** ** The application state *)

Inductive log_entry : Type :=
| LogStarted
| LogSaved (data : pyval)
| LogCalculated (bmi : float) (category : string)
| LogError (context : string) (e : exn).

(** Bodies handed to [threading.Thread(target=...)]. *)
Inductive task : Type :=
| CalculateInThread (weight height : float)
| SaveTask (data : pyval)
| LoadAndDisplay.

(** Functions handed to [root.after(0, ...)]. *)
Inductive callback : Type :=
| UpdateUIResults (bmi : float) (category color status_message : string)
| UpdateChart
| ShowError (title message : string)
| DisplayHistory (history : pyval).

Section Application.

Local Open Scope list_scope.

(** [pow(x, 2.0)] of the libm. *)
Variable libm_pow2 : float -> float.

(** [float(s)] on the text of an entry; [None] is ValueError. *)
Variable float_of_string : string -> option float.

(** [datetime] objects, [datetime.fromisoformat] and
    [strftime('%Y-%m-%d %H:%M')]. *)
Variable datetime : Type.
Variable fromisoformat : string -> result datetime.
Variable strftime_minutes : datetime -> string.

(** The line [ax.plot(dates, bmis, ...)] draws. *)
Definition line : Type := (list datetime * list pyval)%type.

(** The values of a row of the history table. *)
Definition row : Type := (string * pyval * pyval * pyval * pyval)%type.

Record world : Type := World {
  weight_var : string;
  height_var : string;
  bmi_result : option float;
  category_result : option string * string;
  status_label : string * option string;
  progress : bool;
  current_bmi : option float;
  current_category : option string;
  chart_visible : bool;
  axes : option line;
  canvas : option line;
  windows : list (list row);
  dialogs : list (string * string);
  after_queue : list callback;
  threads : list task;
  history_file : option file;
  can_create : bool;
  log : list log_entry
}.

Definition set_weight_var (v : string) (w : world) : world :=
  World v (height_var w) (bmi_result w) (category_result w) (status_label w) (progress w)
    (current_bmi w) (current_category w) (chart_visible w) (axes w) (canvas w) (windows w)
    (dialogs w) (after_queue w) (threads w) (history_file w) (can_create w) (log w).
Definition set_height_var (v : string) (w : world) : world :=
  World (weight_var w) v (bmi_result w) (category_result w) (status_label w) (progress w)
    (current_bmi w) (current_category w) (chart_visible w) (axes w) (canvas w) (windows w)
    (dialogs w) (after_queue w) (threads w) (history_file w) (can_create w) (log w).
Definition set_bmi_result (v : option float) (w : world) : world :=
  World (weight_var w) (height_var w) v (category_result w) (status_label w) (progress w)
    (current_bmi w) (current_category w) (chart_visible w) (axes w) (canvas w) (windows w)
    (dialogs w) (after_queue w) (threads w) (history_file w) (can_create w) (log w).
Definition set_category_result (v : option string * string) (w : world) : world :=
  World (weight_var w) (height_var w) (bmi_result w) v (status_label w) (progress w)
    (current_bmi w) (current_category w) (chart_visible w) (axes w) (canvas w) (windows w)
    (dialogs w) (after_queue w) (threads w) (history_file w) (can_create w) (log w).
Definition set_status_label (v : string * option string) (w : world) : world :=
  World (weight_var w) (height_var w) (bmi_result w) (category_result w) v (progress w)
    (current_bmi w) (current_category w) (chart_visible w) (axes w) (canvas w) (windows w)
    (dialogs w) (after_queue w) (threads w) (history_file w) (can_create w) (log w).
Definition set_progress (v : bool) (w : world) : world :=
  World (weight_var w) (height_var w) (bmi_result w) (category_result w) (status_label w)
    v (current_bmi w) (current_category w) (chart_visible w) (axes w) (canvas w) (windows
    w) (dialogs w) (after_queue w) (threads w) (history_file w) (can_create w) (log w).
Definition set_current_bmi (v : option float) (w : world) : world :=
  World (weight_var w) (height_var w) (bmi_result w) (category_result w) (status_label w)
    (progress w) v (current_category w) (chart_visible w) (axes w) (canvas w) (windows w)
    (dialogs w) (after_queue w) (threads w) (history_file w) (can_create w) (log w).
Definition set_current_category (v : option string) (w : world) : world :=
  World (weight_var w) (height_var w) (bmi_result w) (category_result w) (status_label w)
    (progress w) (current_bmi w) v (chart_visible w) (axes w) (canvas w) (windows w)
    (dialogs w) (after_queue w) (threads w) (history_file w) (can_create w) (log w).
Definition set_chart_visible (v : bool) (w : world) : world :=
  World (weight_var w) (height_var w) (bmi_result w) (category_result w) (status_label w)
    (progress w) (current_bmi w) (current_category w) v (axes w) (canvas w) (windows w)
    (dialogs w) (after_queue w) (threads w) (history_file w) (can_create w) (log w).
Definition set_axes (v : option line) (w : world) : world :=
  World (weight_var w) (height_var w) (bmi_result w) (category_result w) (status_label w)
    (progress w) (current_bmi w) (current_category w) (chart_visible w) v (canvas w)
    (windows w) (dialogs w) (after_queue w) (threads w) (history_file w) (can_create w)
    (log w).
Definition set_canvas (v : option line) (w : world) : world :=
  World (weight_var w) (height_var w) (bmi_result w) (category_result w) (status_label w)
    (progress w) (current_bmi w) (current_category w) (chart_visible w) (axes w) v
    (windows w) (dialogs w) (after_queue w) (threads w) (history_file w) (can_create w)
    (log w).
Definition set_windows (v : list (list row)) (w : world) : world :=
  World (weight_var w) (height_var w) (bmi_result w) (category_result w) (status_label w)
    (progress w) (current_bmi w) (current_category w) (chart_visible w) (axes w) (canvas
    w) v (dialogs w) (after_queue w) (threads w) (history_file w) (can_create w) (log w).
Definition set_dialogs (v : list (string * string)) (w : world) : world :=
  World (weight_var w) (height_var w) (bmi_result w) (category_result w) (status_label w)
    (progress w) (current_bmi w) (current_category w) (chart_visible w) (axes w) (canvas
    w) (windows w) v (after_queue w) (threads w) (history_file w) (can_create w) (log w).
Definition set_after_queue (v : list callback) (w : world) : world :=
  World (weight_var w) (height_var w) (bmi_result w) (category_result w) (status_label w)
    (progress w) (current_bmi w) (current_category w) (chart_visible w) (axes w) (canvas
    w) (windows w) (dialogs w) v (threads w) (history_file w) (can_create w) (log w).
Definition set_threads (v : list task) (w : world) : world :=
  World (weight_var w) (height_var w) (bmi_result w) (category_result w) (status_label w)
    (progress w) (current_bmi w) (current_category w) (chart_visible w) (axes w) (canvas
    w) (windows w) (dialogs w) (after_queue w) v (history_file w) (can_create w) (log w).
Definition set_history_file (v : option file) (w : world) : world :=
  World (weight_var w) (height_var w) (bmi_result w) (category_result w) (status_label w)
    (progress w) (current_bmi w) (current_category w) (chart_visible w) (axes w) (canvas
    w) (windows w) (dialogs w) (after_queue w) (threads w) v (can_create w) (log w).
Definition set_can_create (v : bool) (w : world) : world :=
  World (weight_var w) (height_var w) (bmi_result w) (category_result w) (status_label w)
    (progress w) (current_bmi w) (current_category w) (chart_visible w) (axes w) (canvas
    w) (windows w) (dialogs w) (after_queue w) (threads w) (history_file w) v (log w).
Definition set_log (v : list log_entry) (w : world) : world :=
  World (weight_var w) (height_var w) (bmi_result w) (category_result w) (status_label w)
    (progress w) (current_bmi w) (current_category w) (chart_visible w) (axes w) (canvas
    w) (windows w) (dialogs w) (after_queue w) (threads w) (history_file w) (can_create w)
    v.

(** ** Statements that mutate the state and may raise *)

Definition M (A : Type) : Type := world -> result A * world.

Definition ret {A : Type} (a : A) : M A := fun w => (Ok a, w).

Definition bind {A B : Type} (m : M A) (k : A -> M B) : M B :=
  fun w =>
    match m w with
    | (Ok a, w') => k a w'
    | (Raise e, w') => (Raise e, w')
    end.

Definition raise {A : Type} (e : exn) : M A := fun w => (Raise e, w).

Definition lift {A : Type} (r : result A) : M A := fun w => (r, w).

(** [try: body  except Exception as e: handler(e)]: what [body] did to the
    state before it raised stays done. *)
Definition try_except {A : Type} (body : M A) (handler : exn -> M A) : M A :=
  fun w =>
    match body w with
    | (Ok a, w') => (Ok a, w')
    | (Raise e, w') => handler e w'
    end.

Definition get {A : Type} (f : world -> A) : M A := fun w => (Ok (f w), w).

Definition modify (f : world -> world) : M unit := fun w => (Ok tt, f w).

Definition exec {A : Type} (m : M A) (w : world) : world := snd (m w).

Definition eval {A : Type} (m : M A) (w : world) : result A := fst (m w).

Notation "x <- c ;; k" := (bind c (fun x => k))
  (at level 61, c at next level, right associativity).
Notation "c ;; k" := (bind c (fun _ => k))
  (at level 61, right associativity).

Fixpoint for_each {A : Type} (l : list A) (body : A -> M unit) : M unit :=
  match l with
  | [] => ret tt
  | x :: rest => body x ;; for_each rest body
  end.

(** *** Library calls *)

Definition logging (entry : log_entry) : M unit :=
  modify (fun w => set_log (log w ++ [entry]) w).

Definition logging_error (context : string) (e : exn) : M unit :=
  logging (LogError context e).

(** [messagebox.showerror(title, message)]. *)
Definition showerror (title message : string) : M unit :=
  modify (fun w => set_dialogs (dialogs w ++ [(title, message)]) w).

(** [self.root.after(0, cb)]: [cb] joins the event queue of the main
    thread. *)
Definition root_after (cb : callback) : M unit :=
  modify (fun w => set_after_queue (after_queue w ++ [cb]) w).

(** [threading.Thread(target=t, daemon=True).start()]. *)
Definition thread_start (t : task) : M unit :=
  modify (fun w => set_threads (threads w ++ [t]) w).

(** [float(text)]. *)
Definition py_float (s : string) : M float :=
  match float_of_string s with
  | Some x => ret x
  | None => raise ValueError
  end.

(** [os.path.exists(self.filename)]. *)
Definition path_exists : M bool :=
  get (fun w => match history_file w with Some _ => true | None => false end).

(** [open(self.filename, 'r')] and the read [json.load] makes. *)
Definition open_read : M file_text :=
  fun w =>
    match history_file w with
    | Some f => if readable f then (Ok (text f), w) else (Raise OSError, w)
    | None => (Raise OSError, w)
    end.

Definition json_load (t : file_text) : M pyval :=
  match t with
  | Holds v => ret v
  | Blank | Garbled => raise JSONDecodeError
  end.

(** [open(self.filename, 'w')]: truncates the file, or creates it. *)
Definition open_write : M unit :=
  fun w =>
    match history_file w with
    | Some f =>
        if writable f
        then (Ok tt, set_history_file (Some (File (readable f) true Blank)) w)
        else (Raise OSError, w)
    | None =>
        if can_create w
        then (Ok tt, set_history_file (Some (File true true Blank)) w)
        else (Raise OSError, w)
    end.

(** [json.dump(v, f, indent=2)] into the file just opened. *)
Definition json_dump (v : pyval) : M unit :=
  modify (fun w =>
    match history_file w with
    | Some f => set_history_file (Some (File (readable f) (writable f) (Holds v))) w
    | None => w
    end).

(** *** class BMIHistory *)

Definition load_history : M pyval :=
  try_except
    (present <- path_exists ;;
     if present then
       f <- open_read ;;
       json_load f
     else ret (PList []))
    (fun e =>
       logging_error "History load error" e ;;
       ret (PList [])).

Definition save_task (data : pyval) : M unit :=
  try_except
    (history <- load_history ;;
     history <- lift (Py.append history data) ;;
     open_write ;;
     json_dump history ;;
     logging (LogSaved data))
    (fun e => logging_error "History save error" e).

Definition save_to_history (data : pyval) : M unit :=
  thread_start (SaveTask data).

(** *** class AdvancedBMICalculator *)

Local Open Scope float_scope.

Definition calculate_bmi : M unit :=
  try_except
    (weight_text <- get weight_var ;;
     weight <- py_float weight_text ;;
     height_text <- get height_var ;;
     height <- py_float height_text ;;
     if (weight <=? 0) || (height <=? 0) then
       showerror "Error" "Please enter valid positive values"
     else
       modify (set_progress true) ;;
       modify (fun w => set_status_label ("Calculating BMI...", snd (status_label w)) w) ;;
       thread_start (CalculateInThread weight height))
    (fun e =>
       match e with
       | ValueError => showerror "Error" "Please enter valid numbers"
       | _ =>
           logging_error "Calculation error" e ;;
           showerror "Error" "An error occurred during calculation" ;;
           modify (set_progress false)
       end).

(** The record [_calculate_in_thread] builds. *)
Definition record_of (timestamp : string) (weight height bmi : float) (category : string) : pyval :=
  PDict [("timestamp", PStr timestamp);
         ("weight", PFloat weight);
         ("height", PFloat height);
         ("bmi", PFloat bmi);
         ("category", PStr category)].

(** [now] is what [datetime.now().isoformat()] returns in this run. *)
Definition _calculate_in_thread (now : string) (weight height : float) : M unit :=
  try_except
    (height_in_meters <- lift (PyFloat.truediv height 100) ;;
     squared <- lift (PyFloat.pow2 libm_pow2 height_in_meters) ;;
     bmi <- lift (PyFloat.truediv weight squared) ;;
     let bmi_rounded := PyFloat.round2 bmi in
     let '(category, color, status_message) := get_bmi_category bmi_rounded in
     root_after (UpdateUIResults bmi_rounded category color status_message) ;;
     let record := record_of now weight height bmi_rounded category in
     save_to_history record ;;
     visible <- get chart_visible ;;
     if visible then root_after UpdateChart else ret tt)
    (fun e =>
       logging_error "Calculation thread error" e ;;
       root_after (ShowError "Error" "Calculation failed")).

Definition _update_ui_results (bmi : float) (category color status_message : string) : M unit :=
  modify (set_progress false) ;;
  modify (set_bmi_result (Some bmi)) ;;
  modify (set_category_result (Some category, color)) ;;
  modify (set_status_label (status_message, Some color)) ;;
  modify (set_current_bmi (Some bmi)) ;;
  modify (set_current_category (Some category)) ;;
  logging (LogCalculated bmi category).

Definition clear_inputs : M unit :=
  modify (set_weight_var "") ;;
  modify (set_height_var "") ;;
  modify (set_bmi_result None) ;;
  modify (set_category_result (None, "white")) ;;
  modify (fun w => set_status_label ("", snd (status_label w)) w) ;;
  modify (set_progress false) ;;
  modify (set_current_bmi None) ;;
  modify (set_current_category None).

Definition load_and_display : M unit :=
  try_except
    (history <- load_history ;;
     root_after (DisplayHistory history))
    (fun e =>
       logging_error "History display error" e ;;
       root_after (ShowError "Error" "Failed to load history")).

Definition show_history : M unit :=
  thread_start LoadAndDisplay.

(** [datetime.fromisoformat(v)]. *)
Definition parse_timestamp (v : pyval) : result datetime :=
  match v with
  | PStr s => fromisoformat s
  | _ => Raise TypeError
  end.

Local Open Scope result_scope.

(** The values one turn of the loop of [_display_history] inserts. *)
Definition history_row (record : pyval) : result row :=
  let? stamp := Py.getitem record "timestamp" in
  let? parsed := parse_timestamp stamp in
  let date := strftime_minutes parsed in
  let? weight := Py.getitem record "weight" in
  let? height := Py.getitem record "height" in
  let? bmi := Py.getitem record "bmi" in
  let? category := Py.getitem record "category" in
  Ok (date, weight, height, bmi, category).

(** [tk.Toplevel(self.root)] with its empty [ttk.Treeview]. *)
Definition toplevel : M unit :=
  modify (fun w => set_windows ([] :: windows w) w).

(** [tree.insert('', index, values=r)] on the tree of the newest window. *)
Definition tree_insert (index : nat) (r : row) : M unit :=
  modify (fun w =>
    match windows w with
    | tree :: others =>
        set_windows ((firstn index tree ++ r :: skipn index tree)%list :: others) w
    | [] => w
    end).

Definition _display_history (history : pyval) : M unit :=
  toplevel ;;
  recent <- lift (Py.slice_last 20 history) ;;
  records <- lift (Py.iterate recent) ;;
  for_each (rev records) (fun record =>
    r <- lift (history_row record) ;;
    tree_insert 0 r).

(** [datetime.fromisoformat(record['timestamp'])] and [record['bmi']], the
    bodies of the two comprehensions of [update_chart]. *)
Definition chart_date (record : pyval) : result datetime :=
  let? stamp := Py.getitem record "timestamp" in
  parse_timestamp stamp.

Definition chart_bmi (record : pyval) : result pyval :=
  Py.getitem record "bmi".

Definition update_chart : M unit :=
  try_except
    (history <- load_history ;;
     modify (set_axes None) ;;
     (if Py.truthy history then
        recent_history <- lift (Py.slice_last 10 history) ;;
        records <- lift (Py.iterate recent_history) ;;
        dates <- lift (Py.comprehension chart_date records) ;;
        bmis <- lift (Py.comprehension chart_bmi records) ;;
        modify (set_axes (Some (dates, bmis)))
      else ret tt) ;;
     drawn <- get axes ;;
     modify (set_canvas drawn))
    (fun e => logging_error "Chart update error" e).

(** [setup_chart]: a new figure, axes and canvas. *)
Definition setup_chart : M unit :=
  modify (set_axes None) ;;
  modify (set_canvas None).

Definition show_chart : M unit :=
  visible <- get chart_visible ;;
  if negb visible then
    setup_chart ;;
    modify (set_chart_visible true) ;;
    update_chart
  else ret tt.

Definition hide_chart : M unit :=
  visible <- get chart_visible ;;
  if visible then modify (set_chart_visible false) else ret tt.

Definition toggle_chart : M unit :=
  visible <- get chart_visible ;;
  if negb visible then show_chart else hide_chart.

(** *** Threads and the event loop *)

Definition run_task (now : string) (t : task) : M unit :=
  match t with
  | CalculateInThread weight height => _calculate_in_thread now weight height
  | SaveTask data => save_task data
  | LoadAndDisplay => load_and_display
  end.

Definition run_callback (cb : callback) : M unit :=
  match cb with
  | UpdateUIResults bmi category color status_message =>
      _update_ui_results bmi category color status_message
  | UpdateChart => update_chart
  | ShowError title message => showerror title message
  | DisplayHistory history => _display_history history
  end.

(** Tk runs a queued callback and reports an exception that escapes it. *)
Definition dispatch (cb : callback) : M unit :=
  try_except (run_callback cb)
    (fun e => logging_error "Exception in Tkinter callback" e).

(** What can happen next: the user types or presses a button, a started
    thread runs, or the event loop runs the oldest queued callback.  A
    thread runs to its end in one step. *)
Inductive step : world -> world -> Prop :=
| step_weight (s : string) (w : world) : step w (set_weight_var s w)
| step_height (s : string) (w : world) : step w (set_height_var s w)
| step_calculate (w : world) : step w (exec calculate_bmi w)
| step_clear (w : world) : step w (exec clear_inputs w)
| step_chart (w : world) : step w (exec toggle_chart w)
| step_history (w : world) : step w (exec show_history w)
| step_thread (now : string) (w : world) (before : list task) (t : task) (others : list task) :
    threads w = before ++ t :: others ->
    step w (exec (run_task now t) (set_threads (before ++ others) w))
| step_callback (w : world) (cb : callback) (rest : list callback) :
    after_queue w = cb :: rest ->
    step w (exec (dispatch cb) (set_after_queue rest w)).

Inductive steps : world -> world -> Prop :=
| steps_refl (w : world) : steps w w
| steps_next (w1 w2 w3 : world) : steps w1 w2 -> step w2 w3 -> steps w1 w3.

(** The application as [__init__] leaves it, over a given history file. *)
Definition initial (f : option file) (creatable : bool) : world :=
  {| weight_var := ""; height_var := "";
     bmi_result := None; category_result := (None, "yellow");
     status_label := ("", None); progress := false;
     current_bmi := None; current_category := None;
     chart_visible := false; axes := None; canvas := None;
     windows := []; dialogs := []; after_queue := []; threads := [];
     history_file := f; can_create := creatable;
     log := [LogStarted] |}.

(** ** The history store *)

(** What a reader of the history file sees. *)
Definition stored_value (w : world) : pyval :=
  match history_file w with
  | Some f =>
      if readable f then
        match text f with
        | Holds v => v
        | Blank | Garbled => PList []
        end
      else PList []
  | None => PList []
  end.

(** The records of the log: the list [load_history] returns. *)
Definition stored (w : world) : list pyval :=
  match eval load_history w with
  | Ok (PList records) => records
  | _ => []
  end.

(** The file can serve as a log: it can be created, or it can be read and
    written and does not hold a JSON value other than a list. *)
Definition store_usable (w : world) : bool :=
  match history_file w with
  | None => can_create w
  | Some f =>
      readable f && writable f &&
      match text f with
      | Holds (PList _) | Blank | Garbled => true
      | Holds _ => false
      end
  end.

(** [save_to_history(data)] followed by the run of the thread it starts. *)
Definition append_record (data : pyval) (w : world) : world :=
  let started := exec (save_to_history data) w in
  exec (save_task data) (set_threads (threads w) started).

Definition append_all (records : list pyval) (w : world) : world :=
  fold_left (fun state data => append_record data state) records w.

(** The newest started thread runs. *)
Definition run_newest_thread (now : string) (w : world) : world :=
  match rev (threads w) with
  | [] => w
  | t :: earlier => exec (run_task now t) (set_threads (rev earlier) w)
  end.

(** [append(record)] of the specification: [save_to_history(data)], and
    then the thread it started runs to its end.  [now] is the time a
    thread would read; a save thread reads none. *)
Definition store_append (now : string) (data : pyval) (w : world) : world :=
  run_newest_thread now (exec (save_to_history data) w).


Ltac run_monad :=
  cbv beta iota delta
    [load_history save_task save_to_history path_exists open_read open_write
     json_load json_dump logging_error logging thread_start root_after showerror
     try_except bind ret raise lift get modify exec eval fst snd] in *.

Lemma load_history_eval (w : world) : eval load_history w = Ok (stored_value w).
Proof.
  unfold stored_value. destruct w as [? ? ? ? ? ? ? ? ? ? ? ? ? ? ? hf ? ?].
  run_monad. cbn.
  destruct hf as [[r wr t] | ]; cbn; [ | reflexivity].
  destruct r; cbn; [ | reflexivity].
  destruct t; reflexivity.
Qed.


Lemma stored_eq (w : world) :
  stored w = match stored_value w with PList records => records | _ => [] end.
Proof. unfold stored. rewrite load_history_eval. reflexivity. Qed.

(** The exception [load_history] swallows, if any. *)
Definition load_failure (w : world) : option exn :=
  match history_file w with
  | Some f =>
      if readable f then
        match text f with
        | Holds _ => None
        | Blank | Garbled => Some JSONDecodeError
        end
      else Some OSError
  | None => None
  end.

Definition load_logged (w : world) : world :=
  match load_failure w with
  | Some e => set_log (log w ++ [LogError "History load error" e]) w
  | None => w
  end.

Lemma load_history_run (w : world) :
  load_history w = (Ok (stored_value w), load_logged w).
Proof.
  unfold stored_value, load_logged, load_failure.
  destruct w as [? ? ? ? ? ? ? ? ? ? ? ? ? ? ? hf ? ?].
  run_monad. cbn.
  destruct hf as [[r wr t] | ]; cbn; [ | reflexivity].
  destruct r; cbn; [ | reflexivity].
  destruct t; reflexivity.
Qed.

(** The history file [save_task data] leaves. *)
Definition written (data : pyval) (w : world) : option file :=
  match stored_value w with
  | PList records =>
      match history_file w with
      | Some f =>
          if writable f
          then Some (File (readable f) true (Holds (PList (records ++ [data]))))
          else Some f
      | None =>
          if can_create w
          then Some (File true true (Holds (PList (records ++ [data]))))
          else None
      end
  | _ => history_file w
  end.

Lemma save_task_run (data : pyval) (w : world) :
  exists entries,
    save_task data w =
      (Ok tt, set_log (log w ++ entries) (set_history_file (written data w) w)).
Proof.
  unfold save_task, try_except, bind. rewrite load_history_run.
  unfold written, stored_value, load_logged, load_failure.
  destruct w as [? ? ? ? ? ? ? ? ? ? ? ? ? ? ? hf cc lg].
  run_monad. cbn.
  destruct hf as [[r wr t] | ]; cbn.
  - destruct r; cbn.
    + destruct t as [ | | v]; cbn.
      * destruct wr; cbn; eexists; rewrite <- app_assoc; reflexivity.
      * destruct wr; cbn; eexists; rewrite <- app_assoc; reflexivity.
      * destruct v; cbn; try (eexists [_]; reflexivity).
        destruct wr; cbn; eexists [_]; reflexivity.
    + destruct wr; cbn; eexists; rewrite <- app_assoc; reflexivity.
  - destruct cc; cbn; eexists [_]; reflexivity.
Qed.

Lemma stored_value_ext (w1 w2 : world) :
  history_file w1 = history_file w2 -> stored_value w1 = stored_value w2.
Proof. unfold stored_value. intros ->. reflexivity. Qed.

Lemma stored_ext (w1 w2 : world) :
  history_file w1 = history_file w2 -> stored w1 = stored w2.
Proof. intros E. rewrite !stored_eq, (stored_value_ext w1 w2 E). reflexivity. Qed.


Lemma append_record_file (data : pyval) (w : world) :
  history_file (append_record data w) = written data w /\
  can_create (append_record data w) = can_create w.
Proof.
  unfold append_record.
  destruct (save_task_run data (set_threads (threads w) (exec (save_to_history data) w)))
    as [entries E].
  unfold exec at 1 3. rewrite E. cbn [snd].
  destruct w; split; reflexivity.
Qed.

Lemma written_usable (data : pyval) (w : world) :
  store_usable w = true ->
  written data w = Some (File true true (Holds (PList (stored w ++ [data])))).
Proof.
  rewrite stored_eq. unfold store_usable, written, stored_value.
  destruct (history_file w) as [[r wr t] | ]; cbn.
  - destruct r, wr; cbn; try discriminate.
    destruct t as [ | | v]; cbn; try reflexivity.
    destruct v; cbn; try discriminate. reflexivity.
  - intros ->. reflexivity.
Qed.

Lemma append_record_usable (data : pyval) (w : world) :
  store_usable w = true ->
  store_usable (append_record data w) = true /\
  stored (append_record data w) = stored w ++ [data].
Proof.
  intros U. destruct (append_record_file data w) as [F _].
  rewrite (written_usable data w U) in F.
  split.
  - unfold store_usable. rewrite F. reflexivity.
  - rewrite stored_eq. unfold stored_value. rewrite F. reflexivity.
Qed.


Lemma load_usable (w : world) :
  store_usable w = true -> eval load_history w = Ok (PList (stored w)).
Proof.
  intros U. rewrite stored_eq, load_history_eval. revert U.
  unfold store_usable, stored_value.
  destruct (history_file w) as [[r wr t] | ]; cbn; [ | reflexivity].
  destruct r, wr; cbn; try discriminate.
  destruct t as [ | | v]; cbn; try reflexivity.
  destruct v; cbn; try discriminate. reflexivity.
Qed.

(** C6: [load_history] returns a value in every state of the file, and
    the empty list when the file is missing, empty, unreadable or not
    JSON. *)
Theorem load_history_never_raises (w : world) :
  (exists v, eval load_history w = Ok v) /\
  eval load_history (set_history_file None w) = Ok (PList []) /\
  (forall r wr, eval load_history (set_history_file (Some (File r wr Blank)) w)
                = Ok (PList [])) /\
  (forall wr t, eval load_history (set_history_file (Some (File false wr t)) w)
                = Ok (PList [])) /\
  (forall r wr, eval load_history (set_history_file (Some (File r wr Garbled)) w)
                = Ok (PList [])).
Proof.
  split; [ | split; [ | split; [ | split]]].
  - exists (stored_value w). apply load_history_eval.
  - rewrite load_history_eval. reflexivity.
  - intros r wr. rewrite load_history_eval. destruct r; reflexivity.
  - intros wr t. rewrite load_history_eval. reflexivity.
  - intros r wr. rewrite load_history_eval. destruct r; reflexivity.
Qed.

(** The thread [save_to_history] starts is the newest one, and its run is
    the run of [save_task] on the record. *)
Lemma store_append_run (now : string) (data : pyval) (w : world) :
  store_append now data w = append_record data w.
Proof.
  unfold store_append, run_newest_thread, append_record.
  assert (T : threads (exec (save_to_history data) w) = threads w ++ [SaveTask data])
    by (destruct w; reflexivity).
  rewrite T, rev_unit. cbn [run_task]. rewrite rev_involutive. reflexivity.
Qed.


Lemma store_append_threads (now : string) (data : pyval) (w : world) :
  threads (store_append now data w) = threads w.
Proof.
  rewrite store_append_run. unfold append_record.
  destruct (save_task_run data (set_threads (threads w) (exec (save_to_history data) w)))
    as [entries E].
  unfold exec at 1. rewrite E. destruct w; reflexivity.
Qed.

(** C4: on a file that can serve as a log, [save_to_history] followed by
    the run of the thread it started makes [load_history] return the list
    it returned before with the record added as its last element; that
    thread is then gone, and until it has run [load_history] still returns
    the list without the record. *)
Theorem append_then_load (now : string) (data : pyval) (w : world) :
  store_usable w = true ->
  eval load_history (store_append now data w) = Ok (PList (stored w ++ [data])) /\
  last (stored w ++ [data]) PNone = data /\
  threads (store_append now data w) = threads w /\
  threads (exec (save_to_history data) w) = threads w ++ [SaveTask data] /\
  eval load_history (exec (save_to_history data) w) = Ok (PList (stored w)).
Proof.
  intros U. split; [ | split; [ | split; [ | split]]].
  - rewrite store_append_run.
    destruct (append_record_usable data w U) as [U' S'].
    rewrite (load_usable _ U'), S'. reflexivity.
  - apply last_last.
  - apply store_append_threads.
  - destruct w; reflexivity.
  - rewrite <- (load_usable w U), !load_history_eval.
    apply f_equal, stored_value_ext. destruct w; reflexivity.
Qed.


(** ** The two views of the history *)

Lemma last_n_length {A : Type} (n : nat) (l : list A) :
  List.length (Py.last_n n l) = Nat.min n (List.length l).
Proof. unfold Py.last_n. rewrite length_skipn. lia. Qed.

Lemma last_n_suffix {A : Type} (n : nat) (l : list A) :
  l = firstn (List.length l - n) l ++ Py.last_n n l.
Proof. unfold Py.last_n. symmetry. apply firstn_skipn. Qed.

Lemma comprehension_length {A B : Type} (f : A -> result B) (l : list A) (ys : list B) :
  Py.comprehension f l = Ok ys -> List.length ys = List.length l.
Proof.
  revert ys. induction l as [ | x rest IH]; intros ys; cbn.
  - intros E. injection E as <-. reflexivity.
  - destruct (f x) as [y | e]; cbn; [ | discriminate].
    destruct (Py.comprehension f rest) as [ys' | e]; cbn; [ | discriminate].
    intros E. injection E as <-. cbn. f_equal. apply IH. reflexivity.
Qed.


Lemma for_each_app {A : Type} (l1 l2 : list A) (body : A -> M unit) (w : world) :
  for_each (l1 ++ l2) body w = (for_each l1 body ;; for_each l2 body) w.
Proof.
  revert w. induction l1 as [ | x rest IH]; intros w; cbn.
  - reflexivity.
  - unfold bind in *. destruct (body x w) as [[[] | e] w']; [ | reflexivity].
    apply IH.
Qed.

(** One turn of the loop of [_display_history]. *)
Definition insert_row (record : pyval) : M unit :=
  r <- lift (history_row record) ;;
  tree_insert 0 r.

(** The loop over [reversed(...)], inserting each row at index 0, leaves
    the rows in the order of the list. *)
Lemma display_loop (records : list pyval) (rows : list row) :
  Py.comprehension history_row records = Ok rows ->
  forall (w : world) (tree : list row) (others : list (list row)),
    windows w = tree :: others ->
    for_each (rev records) insert_row w
    = (Ok tt, set_windows ((rows ++ tree) :: others) w).
Proof.
  revert rows. induction records as [ | record rest IH]; intros rows E w tree others W.
  - cbn in E. injection E as <-. cbn. unfold ret. rewrite <- W.
    destruct w; reflexivity.
  - cbn in E.
    destruct (history_row record) as [r | e] eqn:R; cbn in E; [ | discriminate].
    destruct (Py.comprehension history_row rest) as [rows' | e] eqn:E'; cbn in E;
      [ | discriminate].
    injection E as <-.
    cbn [rev]. rewrite for_each_app. unfold bind at 1.
    rewrite (IH rows' eq_refl w tree others W).
    cbn [for_each]. unfold insert_row at 1, bind, lift, ret, tree_insert, modify.
    rewrite R. destruct w; reflexivity.
Qed.

Lemma display_history_run (records : list pyval) (rows : list row) (w : world) :
  Py.comprehension history_row (Py.last_n 20 records) = Ok rows ->
  _display_history (PList records) w = (Ok tt, set_windows (rows :: windows w) w).
Proof.
  intros E. unfold _display_history.
  unfold bind at 1. unfold toplevel at 1, modify at 1.
  unfold bind at 1. unfold lift at 1. cbn [Py.slice_last].
  unfold bind at 1. unfold lift at 1. cbn [Py.iterate].
  change (fun record : pyval => r <- lift (history_row record);; tree_insert 0 r)
    with insert_row.
  rewrite (display_loop _ rows E _ [] (windows w)).
  - rewrite app_nil_r. destruct w; reflexivity.
  - destruct w; reflexivity.
Qed.

(** C10: the history window shows the last 20 records (all of them when
    there are fewer), oldest in the top row, in the order of the log. *)
Theorem history_window_order (records : list pyval) (rows : list row) (w : world) :
  Py.comprehension history_row (Py.last_n 20 records) = Ok rows ->
  eval (_display_history (PList records)) w = Ok tt /\
  windows (exec (_display_history (PList records)) w) = rows :: windows w /\
  List.length rows = Nat.min 20 (List.length records) /\
  (forall (k : nat) (record : pyval),
      nth_error (Py.last_n 20 records) k = Some record ->
      exists r, nth_error rows k = Some r /\ history_row record = Ok r).
Proof.
  intros E. unfold eval, exec. rewrite (display_history_run records rows w E).
  split; [reflexivity | ]. split; [destruct w; reflexivity | ]. split.
  - rewrite (comprehension_length _ _ _ E). apply last_n_length.
  - clear w. revert rows E. generalize (Py.last_n 20 records) as l.
    induction l as [ | x rest IH]; intros rows E k record Hk.
    + destruct k; discriminate.
    + cbn in E. destruct (history_row x) as [r | e] eqn:R; cbn in E; [ | discriminate].
      destruct (Py.comprehension history_row rest) as [rows' | e] eqn:E'; cbn in E;
        [ | discriminate].
      injection E as <-. destruct k as [ | k]; cbn in Hk |- *.
      * injection Hk as <-. exists r. auto.
      * apply (IH rows' eq_refl k record Hk).
Qed.

Lemma load_logged_holds (w : world) (x : pyval) (rest : list pyval) :
  stored_value w = PList (x :: rest) -> load_logged w = w.
Proof.
  unfold stored_value, load_logged, load_failure.
  destruct (history_file w) as [[r wr t] | ]; cbn; [ | discriminate].
  destruct r; cbn; [ | discriminate].
  destruct t; cbn; try discriminate. reflexivity.
Qed.

Lemma update_chart_run (w : world) (records : list pyval)
    (dates : list datetime) (bmis : list pyval) :
  stored_value w = PList records ->
  records <> [] ->
  Py.comprehension chart_date (Py.last_n 10 records) = Ok dates ->
  Py.comprehension chart_bmi (Py.last_n 10 records) = Ok bmis ->
  update_chart w
  = (Ok tt, set_canvas (Some (dates, bmis)) (set_axes (Some (dates, bmis)) w)).
Proof.
  intros S N D B. destruct records as [ | x rest]; [congruence | ].
  unfold update_chart, try_except. unfold bind at 1.
  rewrite load_history_run, S, (load_logged_holds w x rest S).
  unfold bind at 1. unfold modify at 1.
  unfold bind at 1. cbn [Py.truthy].
  unfold bind at 1. unfold lift at 1. cbn [Py.slice_last].
  unfold bind at 1. unfold lift at 1. cbn [Py.iterate].
  unfold bind at 1. unfold lift at 1. rewrite D.
  unfold bind at 1. unfold lift at 1. rewrite B.
  unfold modify, bind, get. destruct w; reflexivity.
Qed.

Lemma update_chart_empty (w : world) :
  stored_value w = PList [] ->
  update_chart w = (Ok tt, set_canvas None (set_axes None (load_logged w))).
Proof.
  intros S. unfold update_chart, try_except. unfold bind at 1.
  rewrite load_history_run, S.
  unfold bind at 1. unfold modify at 1.
  unfold bind at 1. cbn [Py.truthy]. unfold ret at 1.
  unfold modify, bind, get. destruct (load_logged w); reflexivity.
Qed.

Lemma load_and_display_run (w : world) :
  load_and_display w
  = (Ok tt, set_after_queue (after_queue (load_logged w) ++ [DisplayHistory (stored_value w)])
                            (load_logged w)).
Proof.
  unfold load_and_display, try_except. unfold bind at 1.
  rewrite load_history_run. reflexivity.
Qed.

(** C9: a refresh of the chart plots the last 10 records of the history it
    loads and nothing else, and the history window lists the last 20 of the
    history loaded for it. *)
Theorem views_show_last_records (w : world) (records : list pyval) :
  stored_value w = PList records ->
  (forall (dates : list datetime) (bmis : list pyval),
      records <> [] ->
      Py.comprehension chart_date (Py.last_n 10 records) = Ok dates ->
      Py.comprehension chart_bmi (Py.last_n 10 records) = Ok bmis ->
      canvas (exec update_chart w) = Some (dates, bmis) /\
      List.length dates = Nat.min 10 (List.length records) /\
      List.length bmis = Nat.min 10 (List.length records)) /\
  after_queue (exec load_and_display w) = after_queue w ++ [DisplayHistory (PList records)] /\
  (forall (rows : list row) (gui : world),
      Py.comprehension history_row (Py.last_n 20 records) = Ok rows ->
      windows (exec (dispatch (DisplayHistory (PList records))) gui) = rows :: windows gui /\
      List.length rows = Nat.min 20 (List.length records)) /\
  records = firstn (List.length records - 10) records ++ Py.last_n 10 records /\
  records = firstn (List.length records - 20) records ++ Py.last_n 20 records.
Proof.
  intros S. split; [ | split; [ | split; [ | split]]].
  - intros dates bmis N D B. unfold exec.
    rewrite (update_chart_run w records dates bmis S N D B). split; [ | split].
    + destruct w; reflexivity.
    + rewrite (comprehension_length _ _ _ D). apply last_n_length.
    + rewrite (comprehension_length _ _ _ B). apply last_n_length.
  - unfold exec. rewrite load_and_display_run, S.
    unfold load_logged. destruct (load_failure w); destruct w; reflexivity.
  - intros rows gui E. split.
    + unfold exec, dispatch, try_except, run_callback.
      rewrite (display_history_run records rows gui E). destruct gui; reflexivity.
    + rewrite (comprehension_length _ _ _ E). apply last_n_length.
  - apply last_n_suffix.
  - apply last_n_suffix.
Qed.

(** ** Validation of the input *)

(** X20: when an entry does not parse as a float, or a parsed value is
    [<= 0], [calculate_bmi] returns after an error dialog: no thread is
    started, nothing is queued and the history file is untouched.  NaN is
    not [<= 0]: an entry that parses to it is not among these. *)
Theorem invalid_input_rejected (w : world) :
  (float_of_string (weight_var w) = None \/
   float_of_string (height_var w) = None \/
   (exists x, float_of_string (weight_var w) = Some x /\ (x <=? 0) = true) \/
   (exists y, float_of_string (height_var w) = Some y /\ (y <=? 0) = true)) ->
  eval calculate_bmi w = Ok tt /\
  (exists message,
      exec calculate_bmi w = set_dialogs (dialogs w ++ [("Error", message)]) w) /\
  threads (exec calculate_bmi w) = threads w /\
  after_queue (exec calculate_bmi w) = after_queue w /\
  history_file (exec calculate_bmi w) = history_file w /\
  stored (exec calculate_bmi w) = stored w /\
  progress (exec calculate_bmi w) = progress w.
Proof.
  intros Bad.
  assert (Run : exists message,
             calculate_bmi w = (Ok tt, set_dialogs (dialogs w ++ [("Error", message)]) w)).
  { unfold calculate_bmi, try_except, bind, get, py_float, showerror, modify, ret, raise.
    destruct (float_of_string (weight_var w)) as [x | ] eqn:Ex.
    - destruct (float_of_string (height_var w)) as [y | ] eqn:Ey.
      + assert (Hor : (x <=? 0) || (y <=? 0) = true).
        { destruct Bad as [B | [B | [(x' & B & L) | (y' & B & L)]]]; try discriminate.
          - injection B as <-. rewrite L. reflexivity.
          - injection B as <-. rewrite L. apply orb_true_r. }
        rewrite Hor. eexists. reflexivity.
      + eexists. reflexivity.
    - eexists. reflexivity. }
  destruct Run as [message Run]. unfold eval, exec. rewrite Run. cbn [fst snd].
  split; [reflexivity | ]. split; [exists message; reflexivity | ].
  repeat split; try (destruct w; reflexivity).
  apply stored_ext. destruct w; reflexivity.
Qed.

(** Input that passes the validation starts the calculation thread. *)
Lemma valid_input_starts_thread (w : world) (x y : float) :
  float_of_string (weight_var w) = Some x ->
  float_of_string (height_var w) = Some y ->
  (x <=? 0) = false -> (y <=? 0) = false ->
  threads (exec calculate_bmi w) = threads w ++ [CalculateInThread x y] /\
  dialogs (exec calculate_bmi w) = dialogs w.
Proof.
  intros Ex Ey Lx Ly.
  unfold exec, calculate_bmi, try_except, bind, get, py_float, thread_start, modify, ret.
  rewrite Ex, Ey, Lx, Ly. destruct w; split; reflexivity.
Qed.

(** NaN is not [<= 0]: an entry that parses to NaN passes the validation. *)
Lemma nan_passes_validation : (nan <=? 0) = false.
Proof. reflexivity. Qed.

(** ** The calculation thread *)

(** The state [_calculate_in_thread] leaves when the formula gives [bmi]. *)
Definition calculated (now : string) (weight height bmi : float) (w : world) : world :=
  let '(category, color, status_message) := get_bmi_category bmi in
  let queued :=
    after_queue w ++
    UpdateUIResults bmi category color status_message ::
    (if chart_visible w then [UpdateChart] else []) in
  set_after_queue queued
    (set_threads (threads w ++ [SaveTask (record_of now weight height bmi category)]) w).

(** The state it leaves when exception [e] is raised. *)
Definition calculation_failed (e : exn) (w : world) : world :=
  set_after_queue (after_queue w ++ [ShowError "Error" "Calculation failed"])
    (set_log (log w ++ [LogError "Calculation thread error" e]) w).

Lemma calculate_in_thread_run (now : string) (weight height : float) (w : world) :
  _calculate_in_thread now weight height w =
    match spec_bmi libm_pow2 weight height with
    | Ok bmi => (Ok tt, calculated now weight height bmi w)
    | Raise e => (Ok tt, calculation_failed e w)
    end.
Proof.
  unfold _calculate_in_thread, spec_bmi, calculated, calculation_failed, try_except.
  unfold bind at 1. unfold lift at 1.
  destruct (PyFloat.truediv height 100) as [metres | e]; cbn [rbind];
    [ | destruct w; reflexivity].
  unfold bind at 1. unfold lift at 1.
  destruct (PyFloat.pow2 libm_pow2 metres) as [square | e]; cbn [rbind];
    [ | destruct w; reflexivity].
  unfold bind at 1. unfold lift at 1.
  destruct (PyFloat.truediv weight square) as [quotient | e]; cbn [rbind];
    [ | destruct w; reflexivity].
  destruct (get_bmi_category (PyFloat.round2 quotient)) as [[category color] message].
  unfold bind, root_after, save_to_history, thread_start, modify, get, ret.
  destruct w as [? ? ? ? ? ? ? ? visible ? ? ? ? ? ? ? ? ?]. cbn.
  destruct visible; cbn; rewrite <- ?app_assoc; reflexivity.
Qed.

Lemma calculate_bmi_process_spec (weight height : float) :
  calculate_bmi_process libm_pow2 weight height =
    match spec_bmi libm_pow2 weight height with
    | Ok bmi => Some bmi
    | Raise _ => None
    end.
Proof. reflexivity. Qed.

Lemma update_ui_results_shows (bmi : float) (category color message : string) (w : world) :
  let shown := exec (dispatch (UpdateUIResults bmi category color message)) w in
  bmi_result shown = Some bmi /\
  category_result shown = (Some category, color) /\
  current_bmi shown = Some bmi /\
  current_category shown = Some category.
Proof. destruct w; cbn. auto. Qed.

(** The formula raises only through the square: OverflowError when the
    libm overflows, ZeroDivisionError when the square is zero. *)
Lemma spec_bmi_cases (weight height : float) :
  spec_bmi libm_pow2 weight height =
    match PyFloat.pow2 libm_pow2 (height / 100) with
    | Ok square =>
        if square =? 0 then Raise ZeroDivisionError
        else Ok (PyFloat.round2 (weight / square))
    | Raise e => Raise e
    end.
Proof.
  unfold spec_bmi, PyFloat.truediv. cbn [rbind].
  change (100 =? 0) with false. cbn [rbind].
  destruct (PyFloat.pow2 libm_pow2 (height / 100)) as [square | e]; cbn [rbind];
    [ | reflexivity].
  destruct (square =? 0); reflexivity.
Qed.

(** On a base that is none of the special cases of [float_pow], [x ** 2]
    is the libm's value, unless that is infinite. *)
Lemma pow2_ordinary (x : float) :
  is_nan x = false -> is_infinity x = false -> (x =? 0) = false ->
  (x <? 0) = false -> (x =? 1) = false ->
  PyFloat.pow2 libm_pow2 x =
    if is_infinity (libm_pow2 x) then Raise OverflowError else Ok (libm_pow2 x).
Proof.
  intros N I Z L O. unfold PyFloat.pow2. rewrite N, I, Z, L, O. reflexivity.
Qed.

Ltac scenario H :=
  rewrite spec_bmi_cases;
  match goal with
  | |- context [PyFloat.pow2 _ ?m] =>
      let v := eval vm_compute in m in
      change m with v;
      rewrite (pow2_ordinary v eq_refl eq_refl eq_refl eq_refl eq_refl);
      destruct (H v) as [E | [E | E]]; rewrite E; vm_compute; reflexivity
  end.

Lemma scenario_values :
  PyFloat.pow2_within_ulp libm_pow2 ->
  spec_bmi libm_pow2 70 175 = Ok 22.86 /\
  spec_bmi libm_pow2 45 170 = Ok 15.57 /\
  spec_bmi libm_pow2 110 180 = Ok 33.95.
Proof.
  intros H. split; [ | split].
  - scenario H.
  - scenario H.
  - scenario H.
Qed.

(** C8: the three scenarios of the specification, as the thread displays
    and records them. *)
Theorem concrete_scenarios (now : string) (w : world) :
  PyFloat.pow2_within_ulp libm_pow2 ->
  exec (_calculate_in_thread now 70 175) w = calculated now 70 175 22.86 w /\
  category_of 22.86 = "Normal Weight" /\
  exec (_calculate_in_thread now 45 170) w = calculated now 45 170 15.57 w /\
  category_of 15.57 = "Underweight" /\
  exec (_calculate_in_thread now 110 180) w = calculated now 110 180 33.95 w /\
  category_of 33.95 = "Obese" /\
  (forall weight height bmi,
      threads (calculated now weight height bmi w)
      = threads w ++ [SaveTask (record_of now weight height bmi (category_of bmi))] /\
      exists color message,
        after_queue (calculated now weight height bmi w)
        = after_queue w ++
          UpdateUIResults bmi (category_of bmi) color message ::
          (if chart_visible w then [UpdateChart] else [])).
Proof.
  intros H. destruct (scenario_values H) as (S1 & S2 & S3).
  unfold exec. rewrite !calculate_in_thread_run, S1, S2, S3. cbn [snd].
  repeat (split; [reflexivity | ]).
  intros weight height bmi. unfold calculated, category_of.
  destruct (get_bmi_category bmi) as [[category color] message]. cbn [fst].
  split; [destruct w; reflexivity | ].
  exists color, message. destruct w; reflexivity.
Qed.

(** ** The history as an invariant of the running application *)

(** A statement that leaves the history file and the started threads as
    they are. *)
Definition preserves_store {A : Type} (m : M A) : Prop :=
  forall w : world,
    history_file (snd (m w)) = history_file w /\
    can_create (snd (m w)) = can_create w /\
    threads (snd (m w)) = threads w.

Lemma preserves_ret {A : Type} (a : A) : preserves_store (ret a).
Proof. intros w. cbn. auto. Qed.

Lemma preserves_raise {A : Type} (e : exn) : preserves_store (@raise A e).
Proof. intros w. cbn. auto. Qed.

Lemma preserves_lift {A : Type} (r : result A) : preserves_store (lift r).
Proof. intros w. cbn. auto. Qed.

Lemma preserves_get {A : Type} (f : world -> A) : preserves_store (get f).
Proof. intros w. cbn. auto. Qed.

Lemma preserves_modify (f : world -> world) :
  (forall w, history_file (f w) = history_file w /\
             can_create (f w) = can_create w /\
             threads (f w) = threads w) ->
  preserves_store (modify f).
Proof. intros H w. cbn. apply H. Qed.

Lemma preserves_bind {A B : Type} (m : M A) (k : A -> M B) :
  preserves_store m -> (forall a, preserves_store (k a)) -> preserves_store (bind m k).
Proof.
  intros Hm Hk w. unfold bind. specialize (Hm w).
  destruct (m w) as [[a | e] w']; cbn in Hm |- *.
  - destruct (Hk a w') as (F & C & T). destruct Hm as (F' & C' & T').
    rewrite F, C, T. auto.
  - assumption.
Qed.

Lemma preserves_try_except {A : Type} (body : M A) (handler : exn -> M A) :
  preserves_store body -> (forall e, preserves_store (handler e)) ->
  preserves_store (try_except body handler).
Proof.
  intros Hb Hh w. unfold try_except. specialize (Hb w).
  destruct (body w) as [[a | e] w']; cbn in Hb |- *.
  - assumption.
  - destruct (Hh e w') as (F & C & T). destruct Hb as (F' & C' & T').
    rewrite F, C, T. auto.
Qed.

Lemma preserves_for_each {A : Type} (l : list A) (body : A -> M unit) :
  (forall x, preserves_store (body x)) -> preserves_store (for_each l body).
Proof.
  intros Hb. induction l as [ | x rest IH]; cbn.
  - apply preserves_ret.
  - apply preserves_bind; auto.
Qed.

Lemma preserves_load_history : preserves_store load_history.
Proof.
  intros w. rewrite load_history_run. cbn [snd]. unfold load_logged.
  destruct (load_failure w); destruct w; cbn; auto.
Qed.

Ltac frame_modify :=
  apply preserves_modify; intros [? ? ? ? ? ? ? ? ? ? ? ? ? ? ? ? ? ?]; cbn;
  repeat match goal with |- context [match ?x with _ => _ end] => destruct x end;
  cbn; auto.

Ltac frame :=
  repeat match goal with
  | |- preserves_store (bind _ _) => apply preserves_bind; [ | intros]
  | |- preserves_store (try_except _ _) => apply preserves_try_except; [ | intros]
  | |- preserves_store (for_each _ _) => apply preserves_for_each; intros
  | |- preserves_store (ret _) => apply preserves_ret
  | |- preserves_store (raise _) => apply preserves_raise
  | |- preserves_store (lift _) => apply preserves_lift
  | |- preserves_store (get _) => apply preserves_get
  | |- preserves_store load_history => apply preserves_load_history
  | |- preserves_store (modify _) => frame_modify
  | |- preserves_store (logging_error _ _) => unfold logging_error
  | |- preserves_store (logging _) => unfold logging
  | |- preserves_store (showerror _ _) => unfold showerror
  | |- preserves_store (root_after _) => unfold root_after
  | |- preserves_store (if ?b then _ else _) => destruct b
  | |- preserves_store (match ?x with _ => _ end) => destruct x
  end.

Lemma preserves_update_chart : preserves_store update_chart.
Proof. unfold update_chart. frame. Qed.

Lemma preserves_display_history (history : pyval) :
  preserves_store (_display_history history).
Proof. unfold _display_history, toplevel, tree_insert. frame. Qed.

Lemma preserves_dispatch (cb : callback) : preserves_store (dispatch cb).
Proof.
  unfold dispatch. apply preserves_try_except.
  - destruct cb; cbn [run_callback].
    + unfold _update_ui_results, logging. frame.
    + apply preserves_update_chart.
    + unfold showerror. frame.
    + apply preserves_display_history.
  - intros e. unfold logging_error, logging. frame.
Qed.

Lemma preserves_clear_inputs : preserves_store clear_inputs.
Proof. unfold clear_inputs. frame. Qed.

Lemma toggle_chart_store (w : world) :
  history_file (exec toggle_chart w) = history_file w /\
  can_create (exec toggle_chart w) = can_create w /\
  threads (exec toggle_chart w) = threads w.
Proof.
  assert (P : preserves_store toggle_chart).
  { unfold toggle_chart, show_chart, hide_chart, setup_chart.
    frame; apply preserves_update_chart. }
  apply P.
Qed.





Lemma calculate_bmi_store (w : world) :
  history_file (exec calculate_bmi w) = history_file w /\
  (threads (exec calculate_bmi w) = threads w \/
   exists x y, threads (exec calculate_bmi w) = threads w ++ [CalculateInThread x y]).
Proof.
  unfold exec, calculate_bmi, try_except, bind, get, py_float, showerror, thread_start,
    modify, ret, raise.
  destruct (float_of_string (weight_var w)) as [x | ];
    [ | destruct w; cbn; auto].
  destruct (float_of_string (height_var w)) as [y | ];
    [ | destruct w; cbn; auto].
  destruct ((x <=? 0) || (y <=? 0)); destruct w; cbn; eauto.
Qed.









(** ** Failures of the history store *)

(** X1: [save_task] contains its failures: it never raises, and when the file
    cannot be opened for writing the file is left as it was and the
    failure is the last line of the log. *)
Theorem save_task_contained (data : pyval) (w : world) :
  match history_file w with
  | Some f => writable f = false
  | None => can_create w = false
  end ->
  eval (save_task data) w = Ok tt /\
  history_file (exec (save_task data) w) = history_file w /\
  threads (exec (save_task data) w) = threads w /\
  exists earlier e,
    log (exec (save_task data) w) = earlier ++ [LogError "History save error" e] /\
    (e = OSError \/ e = AttributeError).
Proof.
  intros Closed. unfold eval, exec, save_task, try_except. unfold bind at 1.
  rewrite load_history_run. revert Closed.
  unfold stored_value, load_logged, load_failure.
  destruct w as [? ? ? ? ? ? ? ? ? ? ? ? ? ? ? hf cc lg].
  run_monad. cbn.
  destruct hf as [[r wr t] | ]; cbn; intros ->.
  - destruct r; cbn.
    + destruct t as [ | | v]; cbn.
      * repeat split. eexists _, OSError. split; [reflexivity | auto].
      * repeat split. eexists _, OSError. split; [reflexivity | auto].
      * destruct v; cbn; repeat split;
          try (eexists _, AttributeError; split; [reflexivity | auto]).
        eexists _, OSError. split; [reflexivity | auto].
    + repeat split. eexists _, OSError. split; [reflexivity | auto].
  - repeat split. eexists _, OSError. split; [reflexivity | auto].
Qed.

(** X2: A writable file that cannot be read or parsed is taken for an empty
    history: [save_task] replaces whatever it held by a list of the new
    record alone. *)
Theorem unparseable_file_overwritten (data : pyval) (w : world) (f : file) :
  history_file w = Some f ->
  writable f = true ->
  readable f = false \/ text f = Blank \/ text f = Garbled ->
  history_file (exec (save_task data) w)
  = Some (File (readable f) true (Holds (PList [data]))) /\
  exists earlier, log (exec (save_task data) w) = earlier ++ [LogSaved data].
Proof.
  intros F W Bad. unfold exec, save_task, try_except. unfold bind at 1.
  rewrite load_history_run. revert F W Bad.
  unfold stored_value, load_logged, load_failure.
  destruct w as [? ? ? ? ? ? ? ? ? ? ? ? ? ? ? hf cc lg].
  run_monad. cbn. intros ->. destruct f as [r wr t]. cbn. intros ->.
  destruct r; cbn.
  - intros [Bad | [-> | ->]]; [discriminate | | ]; cbn;
      (split; [reflexivity | eexists; reflexivity]).
  - intros _. split; [reflexivity | eexists; reflexivity].
Qed.

(** X3: A readable file that holds JSON other than a list blocks the history:
    no append changes it, and no record is ever stored. *)
Theorem non_list_blocks_appends (v : pyval) (records : list pyval) (w : world) (f : file) :
  history_file w = Some f ->
  readable f = true ->
  text f = Holds v ->
  (forall items, v <> PList items) ->
  history_file (append_all records w) = Some f /\
  stored (append_all records w) = [] /\
  eval load_history (append_all records w) = Ok v.
Proof.
  intros F R T NotList.
  assert (Keep : forall data w', history_file w' = Some f ->
                                 history_file (append_record data w') = Some f).
  { intros data w' F'. destruct (append_record_file data w') as [E _]. rewrite E.
    unfold written, stored_value. rewrite F', R, T.
    destruct v; try reflexivity. exfalso. apply (NotList items). reflexivity. }
  assert (Final : history_file (append_all records w) = Some f).
  { revert w F. induction records as [ | data rest IH]; intros w F.
    - exact F.
    - change (append_all (data :: rest) w) with (append_all rest (append_record data w)).
      apply IH. apply Keep. exact F. }
  split; [exact Final | ].
  rewrite stored_eq, load_history_eval. unfold stored_value. rewrite Final, R, T.
  split; [ | reflexivity].
  destruct v; try reflexivity. exfalso. apply (NotList items). reflexivity.
Qed.

(** ** Who writes the history file *)

(** X4: Only the run of a save thread changes the history file: what the user
    does, the calculation and load threads and every Tk callback leave it
    as it is, and no step removes it or changes whether it can be created. *)
Theorem only_save_threads_write (w w' : world) :
  step w w' ->
  can_create w' = can_create w /\
  (history_file w' = history_file w \/
   exists data, In (SaveTask data) (threads w) /\ history_file w' = written data w).
Proof.
  intros St. destruct St as
    [s w | s w | w | w | w | w | now w before t others T | w cb rest Q].
  - destruct w; cbn; auto.
  - destruct w; cbn; auto.
  - destruct (calculate_bmi_store w) as [F _]. split; [ | left; exact F].
    unfold exec, calculate_bmi, try_except, bind, get, py_float, showerror, thread_start,
      modify, ret, raise.
    destruct (float_of_string (weight_var w)) as [x | ]; [ | destruct w; reflexivity].
    destruct (float_of_string (height_var w)) as [y | ]; [ | destruct w; reflexivity].
    destruct ((x <=? 0) || (y <=? 0)); destruct w; reflexivity.
  - destruct (preserves_clear_inputs w) as (F & C & _). auto.
  - destruct (toggle_chart_store w) as (F & C & _). auto.
  - destruct w; cbn; auto.
  - set (v := set_threads (before ++ others) w).
    assert (Fv : history_file v = history_file w) by (destruct w; reflexivity).
    assert (Cv : can_create v = can_create w) by (destruct w; reflexivity).
    destruct t as [weight height | data | ]; cbn [run_task].
    + unfold exec. rewrite calculate_in_thread_run.
      destruct (spec_bmi libm_pow2 weight height) as [bmi | e]; cbn [snd].
      * unfold calculated. destruct (get_bmi_category bmi) as [[category color] message].
        destruct w; cbn; auto.
      * destruct w; cbn; auto.
    + destruct (save_task_run data v) as [entries Run].
      unfold exec. rewrite Run. cbn [snd]. split; [destruct w; reflexivity | ].
      right. exists data. split.
      * rewrite T. apply in_or_app. right. left. reflexivity.
      * assert (Wv : written data v = written data w).
        { unfold written, stored_value. rewrite Fv, Cv. reflexivity. }
        rewrite <- Wv. destruct w; reflexivity.
    + unfold exec. rewrite load_and_display_run. cbn [snd].
      unfold load_logged. destruct (load_failure v); destruct w; cbn; auto.
  - set (v := set_after_queue rest w).
    destruct (preserves_dispatch cb v) as (F & C & _).
    unfold exec. rewrite F, C. destruct w; cbn; auto.
Qed.

(** ** The buttons *)

Lemma show_chart_hidden (w : world) :
  chart_visible w = false ->
  show_chart w
  = update_chart (set_chart_visible true (set_canvas None (set_axes None w))).
Proof.
  intros H. unfold show_chart. unfold bind at 1. unfold get at 1. rewrite H. cbn [negb].
  unfold setup_chart. unfold bind at 1 2 3. unfold modify at 1 2 3. reflexivity.
Qed.

Lemma update_chart_visible (w : world) :
  chart_visible (snd (update_chart w)) = chart_visible w.
Proof.
  assert (K : forall history (v : world),
             chart_visible
               (snd ((modify (set_axes None) ;;
                      (if Py.truthy history then
                         recent_history <- lift (Py.slice_last 10 history) ;;
                         records <- lift (Py.iterate recent_history) ;;
                         dates <- lift (Py.comprehension chart_date records) ;;
                         bmis <- lift (Py.comprehension chart_bmi records) ;;
                         modify (set_axes (Some (dates, bmis)))
                       else ret tt) ;;
                      drawn <- get axes ;;
                      modify (set_canvas drawn)) v))
             = chart_visible v /\
             forall e, chart_visible (snd (logging_error "Chart update error" e v))
                       = chart_visible v).
  { intros history v. split; [ | intros e; destruct v; reflexivity].
    unfold bind, modify, lift, get, ret.
    destruct (Py.truthy history); [ | destruct v; reflexivity].
    destruct (Py.slice_last 10 history) as [recent | e]; [ | destruct v; reflexivity].
    destruct (Py.iterate recent) as [records | e]; [ | destruct v; reflexivity].
    destruct (Py.comprehension chart_date records) as [dates | e];
      [ | destruct v; reflexivity].
    destruct (Py.comprehension chart_bmi records) as [bmis | e];
      destruct v; reflexivity. }
  unfold update_chart, try_except. unfold bind at 1. rewrite load_history_run.
  assert (L : chart_visible (load_logged w) = chart_visible w).
  { unfold load_logged. destruct (load_failure w); destruct w; reflexivity. }
  destruct (K (stored_value w) (load_logged w)) as [K1 _].
  match goal with
  | |- chart_visible (snd match ?body with _ => _ end) = _ =>
      change (chart_visible (snd body) = chart_visible (load_logged w)) in K1;
      destruct body as [[[] | e] v'] eqn:B
  end; cbn [snd] in K1 |- *.
  - rewrite K1. exact L.
  - destruct (K PNone v') as [_ K2]. rewrite K2, K1. exact L.
Qed.

(** X5: The chart button alternates: each press flips the visibility, so two
    presses restore it; hiding changes nothing else, and showing sets up
    a fresh chart and refreshes it at once. *)
Theorem toggle_chart_flips (w : world) :
  chart_visible (exec toggle_chart w) = negb (chart_visible w) /\
  chart_visible (exec toggle_chart (exec toggle_chart w)) = chart_visible w /\
  (chart_visible w = true -> exec toggle_chart w = set_chart_visible false w) /\
  (chart_visible w = false ->
   exec toggle_chart w
   = exec update_chart (set_chart_visible true (set_canvas None (set_axes None w)))).
Proof.
  assert (Hide : forall v, chart_visible v = true ->
                           exec toggle_chart v = set_chart_visible false v).
  { intros v H. unfold exec, toggle_chart, hide_chart, bind, get, modify.
    rewrite H. cbn [negb]. cbv beta. rewrite H. reflexivity. }
  assert (Show : forall v, chart_visible v = false ->
                           exec toggle_chart v
                           = exec update_chart
                               (set_chart_visible true (set_canvas None (set_axes None v)))).
  { intros v H. unfold exec, toggle_chart. unfold bind at 1. unfold get at 1.
    rewrite H. cbn [negb]. rewrite (show_chart_hidden v H). reflexivity. }
  assert (Flip : forall v, chart_visible (exec toggle_chart v) = negb (chart_visible v)).
  { intros v. destruct (chart_visible v) eqn:H.
    - rewrite (Hide v H). destruct v; reflexivity.
    - rewrite (Show v H). unfold exec. rewrite update_chart_visible.
      destruct v; reflexivity. }
  split; [apply Flip | ]. split; [ | split; [apply Hide | apply Show]].
  rewrite !Flip. apply negb_involutive.
Qed.

(** The state [calculate_bmi] leaves on input it accepts. *)
Definition accepted (weight height : float) (w : world) : world :=
  set_threads (threads w ++ [CalculateInThread weight height])
    (set_status_label ("Calculating BMI...", snd (status_label w))
       (set_progress true w)).

Lemma calculate_bmi_accepts (w : world) (x y : float) :
  float_of_string (weight_var w) = Some x ->
  float_of_string (height_var w) = Some y ->
  (x <=? 0) = false -> (y <=? 0) = false ->
  calculate_bmi w = (Ok tt, accepted x y w).
Proof.
  intros Ex Ey Lx Ly.
  unfold calculate_bmi, try_except, bind, get, py_float, thread_start, modify, ret, accepted.
  rewrite Ex, Ey, Lx, Ly. destruct w; reflexivity.
Qed.

(** X6: When both entries parse and neither value is [<= 0], [calculate_bmi]
    starts one calculation thread on the parsed values, starts the
    progress bar and announces the calculation; it opens no dialog and
    queues nothing. *)
Theorem valid_input_accepted (w : world) (x y : float) :
  float_of_string (weight_var w) = Some x ->
  float_of_string (height_var w) = Some y ->
  (x <=? 0) = false -> (y <=? 0) = false ->
  eval calculate_bmi w = Ok tt /\
  threads (exec calculate_bmi w) = threads w ++ [CalculateInThread x y] /\
  progress (exec calculate_bmi w) = true /\
  fst (status_label (exec calculate_bmi w)) = "Calculating BMI..." /\
  dialogs (exec calculate_bmi w) = dialogs w /\
  after_queue (exec calculate_bmi w) = after_queue w /\
  bmi_result (exec calculate_bmi w) = bmi_result w /\
  history_file (exec calculate_bmi w) = history_file w.
Proof.
  intros Ex Ey Lx Ly. unfold eval, exec.
  rewrite (calculate_bmi_accepts w x y Ex Ey Lx Ly). unfold accepted.
  destruct w; cbn. repeat split.
Qed.

(** ** A calculation from the button to the history *)

(** The oldest started thread runs. *)
Definition run_thread (now : string) (w : world) : world :=
  match threads w with
  | [] => w
  | t :: rest => exec (run_task now t) (set_threads rest w)
  end.

(** The event loop handles the oldest queued callback. *)
Definition run_event (w : world) : world :=
  match after_queue w with
  | [] => w
  | cb :: rest => exec (dispatch cb) (set_after_queue rest w)
  end.

Lemma run_thread_steps (now : string) (w : world) : steps w (run_thread now w).
Proof.
  unfold run_thread. destruct (threads w) as [ | t rest] eqn:T.
  - apply steps_refl.
  - apply steps_next with (w2 := w); [apply steps_refl | ].
    apply (step_thread now w [] t rest). exact T.
Qed.

Lemma run_event_steps (w : world) : steps w (run_event w).
Proof.
  unfold run_event. destruct (after_queue w) as [ | cb rest] eqn:Q.
  - apply steps_refl.
  - apply steps_next with (w2 := w); [apply steps_refl | ].
    apply (step_callback w cb rest). exact Q.
Qed.

Lemma steps_trans (w1 w2 w3 : world) : steps w1 w2 -> steps w2 w3 -> steps w1 w3.
Proof.
  intros S12 S23. induction S23 as [w | w2 w3 w4 S23 IH S34].
  - assumption.
  - apply steps_next with (w2 := w3); [apply IH; assumption | assumption].
Qed.

(** The state [_update_ui_results] leaves. *)
Definition result_shown (bmi : float) (category color message : string) (w : world) : world :=
  set_log (log w ++ [LogCalculated bmi category])
    (set_current_category (Some category)
       (set_current_bmi (Some bmi)
          (set_status_label (message, Some color)
             (set_category_result (Some category, color)
                (set_bmi_result (Some bmi) (set_progress false w)))))).

Lemma dispatch_update_ui (bmi : float) (category color message : string) (w : world) :
  dispatch (UpdateUIResults bmi category color message) w
  = (Ok tt, result_shown bmi category color message w).
Proof. destruct w; reflexivity. Qed.

(** X7: From an idle application with valid entries and a usable history:
    pressing Calculate, letting the calculation thread run, the event loop
    show its result and the save thread write it leaves the BMI of the
    formula on display with its category, the progress bar stopped, the
    record at the end of the history and nothing pending but the chart
    refresh of a visible chart. *)
Theorem calculation_end_to_end (now later : string) (w : world) (x y bmi : float) :
  threads w = [] ->
  after_queue w = [] ->
  float_of_string (weight_var w) = Some x ->
  float_of_string (height_var w) = Some y ->
  (x <=? 0) = false -> (y <=? 0) = false ->
  spec_bmi libm_pow2 x y = Ok bmi ->
  store_usable w = true ->
  let final := run_thread later (run_event (run_thread now (exec calculate_bmi w))) in
  steps w final /\
  bmi_result final = Some bmi /\
  fst (category_result final) = Some (category_of bmi) /\
  current_bmi final = Some bmi /\
  current_category final = Some (category_of bmi) /\
  progress final = false /\
  dialogs final = dialogs w /\
  stored final = stored w ++ [record_of now x y bmi (category_of bmi)] /\
  threads final = [] /\
  after_queue final = (if chart_visible w then [UpdateChart] else []).
Proof.
  intros T Q Ex Ey Lx Ly B U final.
  split.
  { subst final.
    apply steps_trans with (w2 := exec calculate_bmi w).
    - apply steps_next with (w2 := w); [apply steps_refl | apply step_calculate].
    - apply steps_trans with (w2 := run_thread now (exec calculate_bmi w));
        [apply run_thread_steps | ].
      apply steps_trans with (w2 := run_event (run_thread now (exec calculate_bmi w)));
        [apply run_event_steps | apply run_thread_steps]. }
  assert (E1 : exec calculate_bmi w = accepted x y w).
  { unfold exec. rewrite (calculate_bmi_accepts w x y Ex Ey Lx Ly). reflexivity. }
  subst final. rewrite E1. clear E1.
  assert (R1 : run_thread now (accepted x y w)
               = calculated now x y bmi
                   (set_status_label ("Calculating BMI...", snd (status_label w))
                      (set_progress true w))).
  { unfold run_thread, accepted, exec. destruct w; cbn in T |- *. subst.
    cbn. rewrite calculate_in_thread_run, B. reflexivity. }
  rewrite R1. clear R1. unfold calculated, category_of.
  destruct (get_bmi_category bmi) as [[category color] message]. cbn [fst].
  set (record := record_of now x y bmi category).
  assert (R2 : run_event
                 (set_after_queue
                    (after_queue
                       (set_status_label ("Calculating BMI...", snd (status_label w))
                          (set_progress true w)) ++
                     UpdateUIResults bmi category color message ::
                     (if chart_visible
                           (set_status_label ("Calculating BMI...", snd (status_label w))
                              (set_progress true w))
                      then [UpdateChart] else []))
                    (set_threads
                       (threads
                          (set_status_label ("Calculating BMI...", snd (status_label w))
                             (set_progress true w)) ++ [SaveTask record])
                       (set_status_label ("Calculating BMI...", snd (status_label w))
                          (set_progress true w))))
               = result_shown bmi category color message
                   (set_after_queue (if chart_visible w then [UpdateChart] else [])
                      (set_threads [SaveTask record] w))).
  { unfold run_event, exec. destruct w; cbn in T, Q |- *. subst. cbn. reflexivity. }
  rewrite R2. clear R2.
  set (shown := result_shown bmi category color message
                  (set_after_queue (if chart_visible w then [UpdateChart] else [])
                     (set_threads [SaveTask record] w))).
  assert (Ts : threads shown = [SaveTask record]) by (destruct w; reflexivity).
  assert (R3 : exists entries,
             run_thread later shown
             = set_log (log (set_threads [] shown) ++ entries)
                 (set_history_file (written record (set_threads [] shown))
                    (set_threads [] shown))).
  { unfold run_thread. rewrite Ts. cbn [run_task].
    destruct (save_task_run record (set_threads [] shown)) as [entries Run].
    exists entries. unfold exec. rewrite Run. reflexivity. }
  destruct R3 as [entries R3]. rewrite R3. clear R3.
  assert (W : written record (set_threads [] shown)
              = Some (File true true (Holds (PList (stored w ++ [record]))))).
  { rewrite <- (written_usable record w U). unfold written, stored_value.
    destruct w; reflexivity. }
  rewrite W.
  repeat split; destruct w; reflexivity.
Qed.

(** X8: When the formula raises in the calculation thread, the user gets the
    dialog "Calculation failed" and nothing is displayed or saved, but the
    progress bar started by [calculate_bmi] is left running. *)
Theorem failed_calculation_keeps_progress (now : string) (w : world) (x y : float) (e : exn) :
  threads w = [] ->
  after_queue w = [] ->
  float_of_string (weight_var w) = Some x ->
  float_of_string (height_var w) = Some y ->
  (x <=? 0) = false -> (y <=? 0) = false ->
  spec_bmi libm_pow2 x y = Raise e ->
  let final := run_event (run_thread now (exec calculate_bmi w)) in
  steps w final /\
  progress final = true /\
  dialogs final = dialogs w ++ [("Error", "Calculation failed")] /\
  bmi_result final = bmi_result w /\
  history_file final = history_file w /\
  threads final = [] /\
  after_queue final = [] /\
  log final = log w ++ [LogError "Calculation thread error" e].
Proof.
  intros T Q Ex Ey Lx Ly B final.
  split.
  { subst final.
    apply steps_trans with (w2 := exec calculate_bmi w).
    - apply steps_next with (w2 := w); [apply steps_refl | apply step_calculate].
    - apply steps_trans with (w2 := run_thread now (exec calculate_bmi w));
        [apply run_thread_steps | apply run_event_steps]. }
  assert (E1 : exec calculate_bmi w = accepted x y w).
  { unfold exec. rewrite (calculate_bmi_accepts w x y Ex Ey Lx Ly). reflexivity. }
  subst final. rewrite E1. clear E1.
  assert (R1 : run_thread now (accepted x y w)
               = calculation_failed e
                   (set_status_label ("Calculating BMI...", snd (status_label w))
                      (set_progress true w))).
  { unfold run_thread, accepted, exec. destruct w; cbn in T |- *. subst.
    cbn. rewrite calculate_in_thread_run, B. reflexivity. }
  rewrite R1. clear R1. unfold calculation_failed, run_event, exec.
  destruct w; cbn in T, Q |- *. subst. cbn. repeat split.
Qed.

(** X9: Clear does not cancel a calculation: pressed while the thread is still
    to run, it empties the entries, but the result is displayed when it
    arrives and the record is still handed to a save thread. *)
Theorem clear_keeps_pending (now : string) (w : world) (x y bmi : float) :
  threads w = [] ->
  after_queue w = [] ->
  float_of_string (weight_var w) = Some x ->
  float_of_string (height_var w) = Some y ->
  (x <=? 0) = false -> (y <=? 0) = false ->
  spec_bmi libm_pow2 x y = Ok bmi ->
  let cleared := exec clear_inputs (exec calculate_bmi w) in
  let final := run_event (run_thread now cleared) in
  threads cleared = [CalculateInThread x y] /\
  weight_var cleared = "" /\ height_var cleared = "" /\ bmi_result cleared = None /\
  weight_var final = "" /\ height_var final = "" /\
  bmi_result final = Some bmi /\
  current_bmi final = Some bmi /\
  threads final = [SaveTask (record_of now x y bmi (category_of bmi))].
Proof.
  intros T Q Ex Ey Lx Ly B cleared final.
  assert (E1 : exec calculate_bmi w = accepted x y w).
  { unfold exec. rewrite (calculate_bmi_accepts w x y Ex Ey Lx Ly). reflexivity. }
  subst final cleared. rewrite E1. clear E1.
  assert (C : exec clear_inputs (accepted x y w)
              = set_current_category None
                  (set_current_bmi None
                     (set_progress false
                        (set_status_label ("", snd (status_label w))
                           (set_category_result (None, "white")
                              (set_bmi_result None
                                 (set_height_var ""
                                    (set_weight_var ""
                                       (set_threads [CalculateInThread x y] w))))))))).
  { destruct w; cbn in T |- *. subst. reflexivity. }
  rewrite C. clear C.
  split; [destruct w; reflexivity | ]. split; [destruct w; reflexivity | ].
  split; [destruct w; reflexivity | ]. split; [destruct w; reflexivity | ].
  match goal with |- context [run_thread now ?v] => set (c := v) end.
  assert (R1 : run_thread now c = calculated now x y bmi (set_threads [] c)).
  { unfold run_thread. assert (Tc : threads c = [CalculateInThread x y])
      by (destruct w; reflexivity).
    rewrite Tc. cbn [run_task]. unfold exec. rewrite calculate_in_thread_run, B.
    reflexivity. }
  rewrite R1. clear R1. unfold calculated, category_of.
  destruct (get_bmi_category bmi) as [[category color] message]. cbn [fst].
  unfold run_event, exec, c. destruct w; cbn in T, Q |- *. subst. cbn. repeat split.
Qed.

(** ** The views on a history that is not well formed *)

(** Whatever the list, the loop of [_display_history] only puts rows on top
    of the tree of the newest window, at most one for each element. *)
Lemma display_loop_any (l : list pyval) :
  exists (outcome : result unit) (rows : list row),
    List.length rows <= List.length l /\
    forall (w : world) (tree : list row) (others : list (list row)),
      windows w = tree :: others ->
      for_each l insert_row w = (outcome, set_windows ((rows ++ tree) :: others) w).
Proof.
  induction l as [ | x rest IH].
  - exists (Ok tt), []. split; [cbn; lia | ].
    intros w tree others W. cbn. unfold ret. rewrite <- W. destruct w; reflexivity.
  - destruct (history_row x) as [r | e] eqn:R.
    + destruct IH as (outcome & rows & Len & IH).
      exists outcome, (rows ++ [r]). split; [rewrite length_app; cbn; lia | ].
      intros w tree others W. cbn [for_each]. unfold bind at 1.
      unfold insert_row at 1, bind, lift, tree_insert, modify. rewrite R, W.
      cbn [firstn skipn app].
      rewrite (IH (set_windows ((r :: tree) :: others) w) (r :: tree) others)
        by (destruct w; reflexivity).
      rewrite <- app_assoc. destruct w; reflexivity.
    + exists (Raise e), []. split; [cbn; lia | ].
      intros w tree others W. cbn [for_each]. unfold bind at 1.
      unfold insert_row at 1, bind, lift. rewrite R. cbn [app]. rewrite <- W.
      destruct w; reflexivity.
Qed.

Lemma string_chars_length (s : string) :
  List.length (Py.string_chars s) = String.length s.
Proof. induction s as [ | c rest IH]; cbn; [reflexivity | now rewrite IH]. Qed.

Lemma string_skip_length (n : nat) (s : string) :
  String.length (Py.string_skip n s) = (String.length s - n)%nat.
Proof.
  revert s. induction n as [ | n IH]; intros s.
  - destruct s; cbn; lia.
  - destruct s as [ | c rest]; cbn; [reflexivity | apply IH].
Qed.

Lemma sliced_length (n : nat) (v recent : pyval) (items : list pyval) :
  Py.slice_last n v = Ok recent -> Py.iterate recent = Ok items -> List.length items <= n.
Proof.
  destruct v; cbn; try discriminate; intros E; injection E as <-; cbn;
    intros I; injection I as <-.
  - rewrite string_chars_length, string_skip_length. lia.
  - rewrite last_n_length. lia.
Qed.

(** X10: Whatever value was loaded, [_display_history] opens one window, fills
    it with at most 20 rows and changes nothing else; an exception that
    stops it (the value is no list, a record lacks a key, a timestamp does
    not parse) is reported by Tk and the window stays as far as it got. *)
Theorem display_history_one_window (history : pyval) :
  exists (outcome : result unit) (rows : list row),
    List.length rows <= 20 /\
    forall w : world,
      _display_history history w = (outcome, set_windows (rows :: windows w) w) /\
      exec (dispatch (DisplayHistory history)) w
      = match outcome with
        | Ok _ => set_windows (rows :: windows w) w
        | Raise e =>
            set_log (log w ++ [LogError "Exception in Tkinter callback" e])
              (set_windows (rows :: windows w) w)
        end.
Proof.
  assert (Core : exists (outcome : result unit) (rows : list row),
             List.length rows <= 20 /\
             forall w : world,
               _display_history history w = (outcome, set_windows (rows :: windows w) w)).
  { unfold _display_history.
    destruct (Py.slice_last 20 history) as [recent | e] eqn:S.
    - destruct (Py.iterate recent) as [items | e] eqn:I.
      + destruct (display_loop_any (rev items)) as (outcome & rows & Len & Loop).
        exists outcome, rows. split.
        * rewrite length_rev in Len. pose proof (sliced_length 20 _ _ _ S I). lia.
        * intros w. unfold bind at 1. unfold toplevel at 1, modify at 1.
          unfold bind at 1. unfold lift at 1.
          unfold bind at 1. unfold lift at 1. rewrite I.
          change (fun record : pyval => r <- lift (history_row record);; tree_insert 0 r)
            with insert_row.
          rewrite (Loop _ [] (windows w)) by (destruct w; reflexivity).
          rewrite app_nil_r. destruct w; reflexivity.
      + exists (Raise e), []. split; [cbn; lia | ].
        intros w. unfold bind, toplevel, modify, lift. rewrite I.
        destruct w; reflexivity.
    - exists (Raise e), []. split; [cbn; lia | ].
      intros w. unfold bind, toplevel, modify, lift. destruct w; reflexivity. }
  destruct Core as (outcome & rows & Len & Run).
  exists outcome, rows. split; [exact Len | ].
  intros w. split; [apply Run | ].
  unfold exec, dispatch, try_except, run_callback. rewrite Run.
  destruct outcome as [[] | e]; [reflexivity | ].
  unfold logging_error, logging, modify. destruct w; reflexivity.
Qed.

Lemma last_n_app_short {A : Type} (n : nat) (older newer : list A) :
  List.length newer <= n ->
  Py.last_n n (older ++ newer) = Py.last_n (n - List.length newer)%nat older ++ newer.
Proof.
  intros Len. unfold Py.last_n. rewrite length_app, skipn_app.
  replace (List.length older + List.length newer - n)%nat
    with (List.length older - (n - List.length newer))%nat by lia.
  replace (List.length older - (n - List.length newer) - List.length older)%nat
    with 0%nat by lia.
  reflexivity.
Qed.

(** X11: A record among the last 20 that cannot be shown stops the filling of
    the history window: the rows of the records after it are in the window,
    in the order of the log, and nothing of it or of the records before
    it; Tk reports the exception. *)
Theorem display_history_stops_at_bad_record
    (older newer : list pyval) (bad : pyval) (e : exn) (rows : list row) (w : world) :
  List.length newer < 20 ->
  history_row bad = Raise e ->
  Py.comprehension history_row newer = Ok rows ->
  exec (dispatch (DisplayHistory (PList (older ++ bad :: newer)))) w
  = set_log (log w ++ [LogError "Exception in Tkinter callback" e])
      (set_windows (rows :: windows w) w).
Proof.
  intros Len Bad Good.
  unfold exec, dispatch, try_except, run_callback, _display_history.
  unfold bind at 1. unfold toplevel at 1, modify at 1.
  unfold bind at 1. unfold lift at 1. cbn [Py.slice_last].
  unfold bind at 1. unfold lift at 1. cbn [Py.iterate].
  change (fun record : pyval => r <- lift (history_row record);; tree_insert 0 r)
    with insert_row.
  rewrite (last_n_app_short 20 older (bad :: newer)) by (cbn; lia).
  rewrite rev_app_distr. cbn [rev]. rewrite <- app_assoc.
  rewrite for_each_app. unfold bind at 1.
  rewrite (display_loop newer rows Good _ [] (windows w)) by (destruct w; reflexivity).
  cbn [app for_each]. unfold bind at 1. unfold insert_row at 1, bind, lift.
  rewrite Bad. unfold logging_error, logging, modify.
  rewrite app_nil_r. destruct w; reflexivity.
Qed.

(** X12: [update_chart] contains its failures and touches neither the history
    file nor the threads; on a history that is empty, or any other value
    Python takes for false, it draws empty axes. *)
Theorem chart_refresh_contained (w : world) :
  eval update_chart w = Ok tt /\
  history_file (exec update_chart w) = history_file w /\
  threads (exec update_chart w) = threads w /\
  chart_visible (exec update_chart w) = chart_visible w /\
  (Py.truthy (stored_value w) = false ->
   axes (exec update_chart w) = None /\ canvas (exec update_chart w) = None).
Proof.
  destruct (preserves_update_chart w) as (F & _ & T).
  split; [ | split; [exact F | split; [exact T | split; [apply update_chart_visible | ]]]].
  - unfold eval, update_chart, try_except. unfold bind at 1. rewrite load_history_run.
    unfold bind, modify, lift, get, ret, logging_error, logging.
    destruct (Py.truthy (stored_value w)); [ | reflexivity].
    destruct (Py.slice_last 10 (stored_value w)) as [recent | e]; [ | reflexivity].
    destruct (Py.iterate recent) as [records | e]; [ | reflexivity].
    destruct (Py.comprehension chart_date records) as [dates | e]; [ | reflexivity].
    destruct (Py.comprehension chart_bmi records) as [bmis | e]; reflexivity.
  - intros Falsy.
    assert (Run : update_chart w
                  = (Ok tt, set_canvas None (set_axes None (load_logged w)))).
    { unfold update_chart, try_except. unfold bind at 1. rewrite load_history_run.
      unfold bind, modify, lift, get, ret. rewrite Falsy.
      destruct (load_logged w); reflexivity. }
    unfold exec. rewrite Run. destruct (load_logged w); split; reflexivity.
Qed.

(** X13: When a record among the last 10 lacks its timestamp or its bmi, or the
    timestamp does not parse, the refresh clears the axes, logs the
    exception and does not redraw: the canvas keeps the picture it had. *)
Theorem chart_malformed_record (w : world) (records : list pyval) (e : exn) :
  stored_value w = PList records ->
  records <> [] ->
  (Py.comprehension chart_date (Py.last_n 10 records) = Raise e \/
   (exists dates, Py.comprehension chart_date (Py.last_n 10 records) = Ok dates) /\
   Py.comprehension chart_bmi (Py.last_n 10 records) = Raise e) ->
  exec update_chart w
  = set_log (log w ++ [LogError "Chart update error" e]) (set_axes None w) /\
  canvas (exec update_chart w) = canvas w /\
  axes (exec update_chart w) = None.
Proof.
  intros S N Bad. destruct records as [ | x rest]; [congruence | ].
  assert (Run : exec update_chart w
                = set_log (log w ++ [LogError "Chart update error" e]) (set_axes None w)).
  { unfold exec, update_chart, try_except. unfold bind at 1.
    rewrite load_history_run, S, (load_logged_holds w x rest S).
    unfold bind at 1. unfold modify at 1.
    unfold bind at 1. cbn [Py.truthy].
    unfold bind at 1. unfold lift at 1. cbn [Py.slice_last].
    unfold bind at 1. unfold lift at 1. cbn [Py.iterate].
    unfold bind at 1. unfold lift at 1.
    destruct Bad as [D | [[dates D] B]]; rewrite D.
    - unfold logging_error, logging, modify. destruct w; reflexivity.
    - unfold bind at 1. unfold lift at 1. rewrite B.
      unfold logging_error, logging, modify. destruct w; reflexivity. }
  rewrite Run. split; [reflexivity | ]. destruct w; split; reflexivity.
Qed.

(** ** The formula and the categories at the edges *)

Lemma SFcompare_refl (x : spec_float) : x <> S754_nan -> SFcompare x x = Some Eq.
Proof.
  destruct x as [s | s | | s m e]; try congruence; intros _; cbn.
  - reflexivity.
  - destruct s; reflexivity.
  - rewrite Z.compare_refl.
    change (Pos.compare_cont Eq m m) with (Pos.compare m m).
    rewrite Pos.compare_refl. destruct s; reflexivity.
Qed.

Lemma is_nan_spec (x : float) :
  is_nan x = match Prim2SF x with S754_nan => true | _ => false end.
Proof.
  unfold is_nan. rewrite FloatAxioms.eqb_spec. unfold SFeqb.
  destruct (Prim2SF x) as [s | s | | s m e] eqn:E; try reflexivity;
    rewrite SFcompare_refl by discriminate; reflexivity.
Qed.

Lemma SFleb_not_nan (x y : spec_float) :
  SFleb x y = true -> x <> S754_nan /\ y <> S754_nan.
Proof.
  unfold SFleb. destruct x, y; cbn; try discriminate; split; discriminate.
Qed.

(** [x <= y] and [y < c] give [x < c]. *)
Lemma SFleb_ltb_trans (x y c : spec_float) :
  SFleb x y = true -> SFltb y c = true -> SFltb x c = true.
Proof.
  unfold SFleb, SFltb.
  destruct x as [sx | sx | | sx mx ex], y as [sy | sy | | sy my ey],
    c as [sc | sc | | sc mc ec]; cbn [SFcompare];
    try discriminate; try (intros _ _; reflexivity);
    try (destruct sx, sy, sc; cbn; congruence).
  destruct sx, sy, sc; try discriminate; try (intros _ _; reflexivity).
  - destruct (Z.compare_spec ex ey), (Z.compare_spec ey ec), (Z.compare_spec ex ec);
      try discriminate; try lia; try (intros _ _; reflexivity); subst;
      change (Pos.compare_cont Eq ?p ?q) with (Pos.compare p q);
      destruct (Pos.compare_spec mx my), (Pos.compare_spec my mc), (Pos.compare_spec mx mc);
      cbn; try discriminate; try lia; intros _ _; reflexivity.
  - destruct (Z.compare_spec ex ey), (Z.compare_spec ey ec), (Z.compare_spec ex ec);
      try discriminate; try lia; try (intros _ _; reflexivity); subst;
      change (Pos.compare_cont Eq ?p ?q) with (Pos.compare p q);
      destruct (Pos.compare_spec mx my), (Pos.compare_spec my mc), (Pos.compare_spec mx mc);
      cbn; try discriminate; try lia; intros _ _; reflexivity.
Qed.

Lemma leb_ltb_trans (x y c : float) :
  (x <=? y) = true -> (y <? c) = true -> (x <? c) = true.
Proof. rewrite leb_spec, !ltb_spec. apply SFleb_ltb_trans. Qed.

(** The place of a category in the order of the bands. *)
Definition band (category : string) : nat :=
  if String.eqb category "Underweight" then 0
  else if String.eqb category "Normal Weight" then 1
  else if String.eqb category "Overweight" then 2
  else if String.eqb category "Obese" then 3
  else 4.

(** X14: The classification is monotone: a BMI that is not smaller never gets
    a lower band. *)
Theorem category_monotone (bmi1 bmi2 : float) :
  (bmi1 <=? bmi2) = true ->
  (band (category_of bmi1) <= band (category_of bmi2))%nat.
Proof.
  intros H.
  assert (N : is_nan bmi1 = false /\ is_nan bmi2 = false).
  { rewrite leb_spec in H. destruct (SFleb_not_nan _ _ H) as [N1 N2].
    rewrite !is_nan_spec. split.
    - destruct (Prim2SF bmi1); congruence.
    - destruct (Prim2SF bmi2); congruence. }
  destruct N as [N1 N2].
  rewrite !category_of_eq.
  rewrite !(leb_negb_ltb bmi1), !(leb_negb_ltb bmi2) by (assumption || reflexivity).
  pose proof (leb_ltb_trans bmi1 bmi2 18.5 H) as H1.
  pose proof (leb_ltb_trans bmi1 bmi2 25 H) as H2.
  pose proof (leb_ltb_trans bmi1 bmi2 30 H) as H3.
  pose proof (leb_ltb_trans bmi1 bmi2 35 H) as H4.
  destruct (bmi2 <? 18.5), (bmi2 <? 25), (bmi2 <? 30), (bmi2 <? 35);
    try rewrite (H1 eq_refl); try rewrite (H2 eq_refl);
    try rewrite (H3 eq_refl); try rewrite (H4 eq_refl); clear H1 H2 H3 H4;
    destruct (bmi1 <? 18.5), (bmi1 <? 25), (bmi1 <? 30), (bmi1 <? 35);
    vm_compute; repeat constructor.
Qed.

Lemma zero_spec (x : float) :
  (x =? 0) = true -> exists s, Prim2SF x = S754_zero s.
Proof.
  rewrite FloatAxioms.eqb_spec. change (Prim2SF 0) with (S754_zero false).
  unfold SFeqb. destruct (Prim2SF x) as [s | s | | s m e]; cbn; try discriminate.
  - intros _. exists s. reflexivity.
  - destruct s; discriminate.
  - destruct s; discriminate.
Qed.

Lemma is_infinity_spec (x : float) :
  is_infinity x = match Prim2SF x with S754_infinity _ => true | _ => false end.
Proof.
  unfold is_infinity. rewrite FloatAxioms.eqb_spec, abs_spec.
  change (Prim2SF infinity) with (S754_infinity false).
  destruct (Prim2SF x) as [s | s | | s m e]; reflexivity.
Qed.

(** X15: [calculate_bmi_process] validates nothing.  Its formula raises only
    ZeroDivisionError or OverflowError, and the function answers [None]
    exactly then; a height of zero is such a case, for every weight. *)
Theorem processor_errors (weight height : float) :
  (forall e, calculate_bmi_process_try libm_pow2 weight height = Raise e ->
             e = ZeroDivisionError \/ e = OverflowError) /\
  (calculate_bmi_process libm_pow2 weight height = None <->
   exists e, calculate_bmi_process_try libm_pow2 weight height = Raise e) /\
  ((height =? 0) = true ->
   calculate_bmi_process_try libm_pow2 weight height = Raise ZeroDivisionError /\
   calculate_bmi_process libm_pow2 weight height = None).
Proof.
  split; [ | split].
  - intros e. change (calculate_bmi_process_try libm_pow2 weight height)
      with (spec_bmi libm_pow2 weight height).
    rewrite spec_bmi_cases. unfold PyFloat.pow2.
    repeat match goal with
           | |- context [if ?b then _ else _] => destruct b
           end; intros E; try discriminate; injection E as <-; auto.
  - unfold calculate_bmi_process.
    destruct (calculate_bmi_process_try libm_pow2 weight height) as [b | e].
    + split; [discriminate | intros [e E]; discriminate].
    + split; [intros _; exists e; reflexivity | reflexivity].
  - intros Z.
    assert (E : calculate_bmi_process_try libm_pow2 weight height = Raise ZeroDivisionError).
    { change (calculate_bmi_process_try libm_pow2 weight height)
        with (spec_bmi libm_pow2 weight height).
      rewrite spec_bmi_cases.
      destruct (zero_spec height Z) as [s Hs].
      assert (Q : Prim2SF (height / 100) = S754_zero s).
      { rewrite div_spec, Hs. destruct s; reflexivity. }
      unfold PyFloat.pow2.
      rewrite is_nan_spec, is_infinity_spec, Q.
      assert (Z' : (height / 100 =? 0) = true).
      { rewrite FloatAxioms.eqb_spec, Q. reflexivity. }
      rewrite Z'. reflexivity. }
    split; [exact E | ]. unfold calculate_bmi_process. rewrite E. reflexivity.
Qed.

Lemma nan_quotient (d : float) : Prim2SF (nan / d) = S754_nan.
Proof. rewrite div_spec. reflexivity. Qed.

Lemma category_of_spec_nan (x : float) :
  Prim2SF x = S754_nan -> category_of x = "Severely Obese".
Proof.
  intros E. rewrite category_of_eq, !ltb_spec, !leb_spec, E. reflexivity.
Qed.

(** X16: An entry that parses to NaN passes the validation: the calculation is
    started on it.  Whatever the height, the thread then either fails or
    displays a NaN and hands a record with that NaN, classified
    "Severely Obese", to a save thread. *)
Theorem nan_weight_accepted (now : string) (w : world) (height : float) :
  float_of_string (weight_var w) = Some nan ->
  float_of_string (height_var w) = Some height ->
  (height <=? 0) = false ->
  threads (exec calculate_bmi w) = threads w ++ [CalculateInThread nan height] /\
  dialogs (exec calculate_bmi w) = dialogs w /\
  forall v : world,
    let after := exec (_calculate_in_thread now nan height) v in
    (exists e, after = calculation_failed e v) \/
    (exists bmi color message,
        is_nan bmi = true /\
        threads after
        = threads v ++ [SaveTask (record_of now nan height bmi "Severely Obese")] /\
        after_queue after
        = after_queue v ++
          UpdateUIResults bmi "Severely Obese" color message ::
          (if chart_visible v then [UpdateChart] else [])).
Proof.
  intros Ex Ey Ly.
  assert (Run : exec calculate_bmi w = accepted nan height w).
  { unfold exec. rewrite (calculate_bmi_accepts w nan height Ex Ey eq_refl Ly).
    reflexivity. }
  rewrite Run. unfold accepted.
  split; [destruct w; reflexivity | ]. split; [destruct w; reflexivity | ].
  intros v. cbv zeta. unfold exec. rewrite calculate_in_thread_run.
  destruct (spec_bmi libm_pow2 nan height) as [bmi | e] eqn:B; cbn [snd].
  - right. rewrite spec_bmi_cases in B.
    destruct (PyFloat.pow2 libm_pow2 (height / 100)) as [square | e]; [ | discriminate].
    destruct (square =? 0); [discriminate | ].
    injection B as <-.
    assert (R : Prim2SF (PyFloat.round2 (nan / square)) = S754_nan).
    { unfold PyFloat.round2. rewrite nan_quotient. apply nan_quotient. }
    pose proof (category_of_spec_nan _ R) as C. unfold category_of in C.
    unfold calculated.
    destruct (get_bmi_category (PyFloat.round2 (nan / square)))
      as [[category color] message].
    cbn [fst] in C. subst category.
    exists (PyFloat.round2 (nan / square)), color, message.
    split; [rewrite is_nan_spec, R; reflexivity | ].
    destruct v; split; reflexivity.
  - left. exists e. reflexivity.
Qed.

(** *** A negative height *)

Lemma Prim2SF_inj (x y : float) : Prim2SF x = Prim2SF y -> x = y.
Proof.
  intros E. rewrite <- (SF2Prim_Prim2SF x), <- (SF2Prim_Prim2SF y), E. reflexivity.
Qed.

Lemma binary_round_aux_opp (s : bool) (m e : Z) (l : location) :
  binary_round_aux prec emax (negb s) m e l
  = SFopp (binary_round_aux prec emax s m e l).
Proof.
  unfold binary_round_aux.
  destruct (shr_fexp prec emax m e l) as [mrs e'].
  destruct (shr_fexp prec emax
              (round_nearest_even (shr_m mrs) (loc_of_shr_record mrs)) e' loc_Exact)
    as [mrs' e''].
  destruct (shr_m mrs'); try reflexivity.
  destruct (Z.leb e'' (emax - prec)); reflexivity.
Qed.

Lemma SFdiv_opp (x y : spec_float) :
  SFdiv prec emax (SFopp x) y = SFopp (SFdiv prec emax x y).
Proof.
  destruct x as [sx | sx | | sx mx ex], y as [sy | sy | | sy my ey]; cbn [SFdiv SFopp];
    try reflexivity; try (destruct sx, sy; reflexivity).
  destruct (SFdiv_core_binary prec emax (Zpos mx) ex (Zpos my) ey) as [[mz ez] lz].
  rewrite <- binary_round_aux_opp. destruct sx, sy; reflexivity.
Qed.

Lemma div_opp (x d : float) : (- x) / d = - (x / d).
Proof.
  apply Prim2SF_inj. rewrite opp_spec, !div_spec, opp_spec. apply SFdiv_opp.
Qed.

Lemma opp_involutive (x : float) : - (- x) = x.
Proof.
  apply Prim2SF_inj. rewrite !opp_spec. destruct (Prim2SF x) as [s | s | | s m e]; cbn;
    try reflexivity; rewrite negb_involutive; reflexivity.
Qed.

(** [x ** 2] does not see the sign of [x]. *)
Lemma pow2_opp (x : float) : PyFloat.pow2 libm_pow2 (- x) = PyFloat.pow2 libm_pow2 x.
Proof.
  unfold PyFloat.pow2.
  rewrite !is_nan_spec, !is_infinity_spec, !FloatAxioms.eqb_spec, !ltb_spec, !opp_spec.
  change (Prim2SF 0) with (S754_zero false).
  destruct (Prim2SF x) as [s | s | | s m e] eqn:E; cbn [SFopp].
  - reflexivity.
  - f_equal. apply Prim2SF_inj. rewrite !abs_spec, opp_spec, E. reflexivity.
  - f_equal. apply Prim2SF_inj. rewrite opp_spec, E. reflexivity.
  - destruct s; cbn.
    + reflexivity.
    + rewrite opp_involutive. reflexivity.
Qed.

(** X17: [calculate_bmi_process] does not see the sign of the height: a negative
    height gives what its absolute value gives. *)
Theorem processor_ignores_height_sign (weight height : float) :
  calculate_bmi_process libm_pow2 weight (- height)
  = calculate_bmi_process libm_pow2 weight height /\
  calculate_bmi_process_try libm_pow2 weight (- height)
  = calculate_bmi_process_try libm_pow2 weight height.
Proof.
  assert (E : calculate_bmi_process_try libm_pow2 weight (- height)
              = calculate_bmi_process_try libm_pow2 weight height).
  { change (calculate_bmi_process_try libm_pow2) with (spec_bmi libm_pow2).
    rewrite !spec_bmi_cases, div_opp, pow2_opp. reflexivity. }
  split; [ | exact E]. unfold calculate_bmi_process. rewrite E. reflexivity.
Qed.

(** ** The history window and the chart in the run of the application *)

(** X18: Pressing Show History on an idle application, letting the load thread
    run and the event loop handle its callback opens one more window with
    the rows of the last 20 records, and leaves the file, the other
    windows and the displayed result as they are. *)
Theorem show_history_end_to_end (now : string) (w : world)
    (records : list pyval) (rows : list row) :
  threads w = [] ->
  after_queue w = [] ->
  stored_value w = PList records ->
  Py.comprehension history_row (Py.last_n 20 records) = Ok rows ->
  let final := run_event (run_thread now (exec show_history w)) in
  steps w final /\
  windows final = rows :: windows w /\
  history_file final = history_file w /\
  bmi_result final = bmi_result w /\
  dialogs final = dialogs w /\
  threads final = [] /\
  after_queue final = [].
Proof.
  intros T Q S R final.
  split.
  { subst final.
    apply steps_trans with (w2 := exec show_history w).
    - apply steps_next with (w2 := w); [apply steps_refl | apply step_history].
    - apply steps_trans with (w2 := run_thread now (exec show_history w));
        [apply run_thread_steps | apply run_event_steps]. }
  assert (E1 : exec show_history w = set_threads [LoadAndDisplay] w).
  { destruct w; cbn in T |- *. subst. reflexivity. }
  subst final. rewrite E1. clear E1.
  assert (E2 : run_thread now (set_threads [LoadAndDisplay] w)
               = set_after_queue [DisplayHistory (PList records)]
                   (load_logged (set_threads [] w))).
  { unfold run_thread.
    assert (Tv : threads (set_threads [LoadAndDisplay] w) = [LoadAndDisplay])
      by (destruct w; reflexivity).
    rewrite Tv. cbn [run_task]. unfold exec. rewrite load_and_display_run. cbn [snd].
    assert (Sv : stored_value (set_threads [] (set_threads [LoadAndDisplay] w))
                 = PList records).
    { rewrite <- S. destruct w; reflexivity. }
    rewrite Sv. unfold load_logged.
    assert (Lv : load_failure (set_threads [] (set_threads [LoadAndDisplay] w))
                 = load_failure (set_threads [] w)) by (destruct w; reflexivity).
    rewrite Lv. destruct (load_failure (set_threads [] w));
      destruct w; cbn in Q |- *; subst; reflexivity. }
  rewrite E2. clear E2.
  set (loaded := load_logged (set_threads [] w)).
  assert (E3 : run_event (set_after_queue [DisplayHistory (PList records)] loaded)
               = set_windows (rows :: windows loaded) (set_after_queue [] loaded)).
  { unfold run_event.
    assert (Qv : after_queue (set_after_queue [DisplayHistory (PList records)] loaded)
                 = [DisplayHistory (PList records)]) by (destruct loaded; reflexivity).
    rewrite Qv. unfold exec, dispatch, try_except, run_callback.
    rewrite (display_history_run records rows _ R). destruct loaded; reflexivity. }
  rewrite E3. clear E3. unfold loaded, load_logged.
  destruct (load_failure (set_threads [] w)); destruct w; cbn in T, Q |- *; subst;
    repeat split.
Qed.

(** X19: With the chart visible, the refresh a calculation queues reads the
    file when the event loop reaches it: handled before the save thread
    has run, it draws the records saved so far and not the new one, which
    is still waiting in its thread. *)
Theorem chart_refresh_before_save (now : string) (w : world) (x y bmi : float)
    (records : list pyval) (dates : list datetime) (bmis : list pyval) :
  threads w = [] ->
  after_queue w = [] ->
  chart_visible w = true ->
  float_of_string (weight_var w) = Some x ->
  float_of_string (height_var w) = Some y ->
  (x <=? 0) = false -> (y <=? 0) = false ->
  spec_bmi libm_pow2 x y = Ok bmi ->
  stored_value w = PList records ->
  records <> [] ->
  Py.comprehension chart_date (Py.last_n 10 records) = Ok dates ->
  Py.comprehension chart_bmi (Py.last_n 10 records) = Ok bmis ->
  let final := run_event (run_event (run_thread now (exec calculate_bmi w))) in
  steps w final /\
  canvas final = Some (dates, bmis) /\
  bmi_result final = Some bmi /\
  stored final = records /\
  threads final = [SaveTask (record_of now x y bmi (category_of bmi))] /\
  after_queue final = [].
Proof.
  intros T Q V Ex Ey Lx Ly B S N D Bm final.
  split.
  { subst final.
    apply steps_trans with (w2 := exec calculate_bmi w).
    - apply steps_next with (w2 := w); [apply steps_refl | apply step_calculate].
    - apply steps_trans with (w2 := run_thread now (exec calculate_bmi w));
        [apply run_thread_steps | ].
      apply steps_trans with (w2 := run_event (run_thread now (exec calculate_bmi w)));
        apply run_event_steps. }
  assert (E1 : exec calculate_bmi w = accepted x y w).
  { unfold exec. rewrite (calculate_bmi_accepts w x y Ex Ey Lx Ly). reflexivity. }
  subst final. rewrite E1. clear E1.
  assert (R1 : run_thread now (accepted x y w)
               = calculated now x y bmi
                   (set_status_label ("Calculating BMI...", snd (status_label w))
                      (set_progress true w))).
  { unfold run_thread, accepted, exec. destruct w; cbn in T |- *. subst.
    cbn. rewrite calculate_in_thread_run, B. reflexivity. }
  rewrite R1. clear R1. unfold calculated, category_of.
  destruct (get_bmi_category bmi) as [[category color] message]. cbn [fst].
  set (record := record_of now x y bmi category).
  match goal with |- context [run_event (run_event ?v)] => set (queued := v) end.
  assert (R2 : run_event queued
               = result_shown bmi category color message
                   (set_after_queue [UpdateChart] (set_threads [SaveTask record] w))).
  { unfold queued, run_event, exec. destruct w; cbn in T, Q, V |- *. subst. reflexivity. }
  rewrite R2. clear R2 queued.
  set (shown := result_shown bmi category color message
                  (set_after_queue [UpdateChart] (set_threads [SaveTask record] w))).
  assert (R3 : run_event shown
               = exec update_chart (set_after_queue [] shown)).
  { unfold run_event.
    assert (Qs : after_queue shown = [UpdateChart]) by (destruct w; reflexivity).
    rewrite Qs. unfold exec, dispatch, try_except, run_callback.
    destruct (update_chart (set_after_queue [] shown)) as [[[] | e] v] eqn:U.
    - reflexivity.
    - exfalso.
      assert (Ev : eval update_chart (set_after_queue [] shown) = Raise e)
        by (unfold eval; rewrite U; reflexivity).
      assert (Ok' : eval update_chart (set_after_queue [] shown) = Ok tt).
      { unfold eval, update_chart, try_except. unfold bind at 1. rewrite load_history_run.
        unfold bind, modify, lift, get, ret, logging_error, logging.
        repeat match goal with
               | |- context [if ?b then _ else _] => destruct b
               | |- context [match ?r with Ok _ => _ | Raise _ => _ end] => destruct r
               end; reflexivity. }
      congruence. }
  rewrite R3. clear R3.
  assert (Sv : stored_value (set_after_queue [] shown) = PList records).
  { rewrite <- S. destruct w; reflexivity. }
  unfold exec. rewrite (update_chart_run _ records dates bmis Sv N D Bm). cbn [snd].
  rewrite stored_eq.
  assert (Sf : stored_value
                 (set_canvas (Some (dates, bmis))
                    (set_axes (Some (dates, bmis)) (set_after_queue [] shown)))
               = PList records).
  { rewrite <- S. destruct w; reflexivity. }
  rewrite Sf.
  repeat split; destruct w; reflexivity.
Qed.

(** ** The formula on positive input *)

(** The formula in the words of the specification,
    [round(weight / (height/100)^2, 2)], as one float expression: no step
    of it can raise, and the square is the libm's. *)
Definition formula_bmi (weight height : float) : float :=
  PyFloat.round2 (weight / libm_pow2 (height / 100)).

(** A float with the sign [s] ([true] is negative): a zero, a finite
    number or an infinity, and no NaN. *)
Definition signed (s : bool) (x : spec_float) : bool :=
  match x with
  | S754_zero t | S754_infinity t | S754_finite t _ _ => Bool.eqb s t
  | S754_nan => false
  end.

Lemma shr_1_nonneg (mrs : shr_record) : (0 <= shr_m mrs)%Z -> (0 <= shr_m (shr_1 mrs))%Z.
Proof.
  destruct mrs as [m r s]. cbn [shr_m]. intros H.
  destruct m as [ | [p | p | ] | p]; cbn; lia.
Qed.

Lemma iter_shr_1_nonneg (p : positive) (mrs : shr_record) :
  (0 <= shr_m mrs)%Z -> (0 <= shr_m (iter_pos shr_1 p mrs))%Z.
Proof.
  revert mrs. induction p as [p IH | p IH | ]; intros mrs H; cbn [iter_pos].
  - apply IH, IH, shr_1_nonneg, H.
  - apply IH, IH, H.
  - apply shr_1_nonneg, H.
Qed.

Lemma shr_fexp_nonneg (m e : Z) (l : location) :
  (0 <= m)%Z -> (0 <= shr_m (fst (shr_fexp prec emax m e l)))%Z.
Proof.
  intros H. unfold shr_fexp, shr.
  assert (R : (0 <= shr_m (shr_record_of_loc m l))%Z).
  { destruct l as [ | []]; exact H. }
  destruct (fexp prec emax (Zdigits2 m + e) - e)%Z; cbn [fst]; try exact R.
  apply iter_shr_1_nonneg, R.
Qed.

Lemma round_nearest_even_nonneg (m : Z) (l : location) :
  (0 <= m)%Z -> (0 <= round_nearest_even m l)%Z.
Proof.
  intros H. unfold round_nearest_even.
  destruct l as [ | []]; try lia. destruct (Z.even m); lia.
Qed.

(** Rounding a mantissa that is not negative gives no NaN and keeps the
    sign. *)
Lemma binary_round_aux_signed (s : bool) (m e : Z) (l : location) :
  (0 <= m)%Z -> signed s (binary_round_aux prec emax s m e l) = true.
Proof.
  intros H. unfold binary_round_aux.
  pose proof (shr_fexp_nonneg m e l H) as H1.
  destruct (shr_fexp prec emax m e l) as [mrs e']. cbn [fst] in H1.
  pose proof (shr_fexp_nonneg _ e' loc_Exact
                (round_nearest_even_nonneg _ (loc_of_shr_record mrs) H1)) as H2.
  destruct (shr_fexp prec emax
              (round_nearest_even (shr_m mrs) (loc_of_shr_record mrs)) e' loc_Exact)
    as [mrs' e'']. cbn [fst] in H2.
  destruct (shr_m mrs') as [ | n | n]; [ | | lia].
  - cbn. apply eqb_reflx.
  - destruct (Z.leb e'' (emax - prec)); cbn; apply eqb_reflx.
Qed.

Lemma SFdiv_core_binary_nonneg (m1 m2 : positive) (e1 e2 : Z) :
  (0 <= fst (fst (SFdiv_core_binary prec emax (Zpos m1) e1 (Zpos m2) e2)))%Z.
Proof.
  unfold SFdiv_core_binary.
  set (s := (e1 - e2 - _)%Z).
  set (m' := match s with Z0 => Zpos m1 | Zpos _ => Z.shiftl (Zpos m1) s | Zneg _ => 0%Z end).
  assert (M : (0 <= m')%Z).
  { unfold m'. destruct s; try lia. apply Z.shiftl_nonneg. lia. }
  pose proof (Z.div_pos m' (Zpos m2) M eq_refl) as Q.
  unfold Z.div in Q.
  destruct (Z.div_eucl m' (Zpos m2)) as [q r]. exact Q.
Qed.

(** A float that is not negative, divided by a positive finite one, is
    not negative and no NaN. *)
Lemma SFdiv_signed (x : spec_float) (my : positive) (ey : Z) :
  signed false x = true ->
  signed false (SFdiv prec emax x (S754_finite false my ey)) = true.
Proof.
  intros X.
  destruct x as [sx | sx | | sx mx ex]; cbn in X; try discriminate;
    destruct sx; try discriminate; cbn [SFdiv xorb]; try reflexivity.
  pose proof (SFdiv_core_binary_nonneg mx my ex ey) as N.
  destruct (SFdiv_core_binary prec emax (Z.pos mx) ex (Z.pos my) ey) as [[mz ez] lz].
  apply binary_round_aux_signed. exact N.
Qed.

Lemma positive_signed (x : float) : (0 <? x) = true -> signed false (Prim2SF x) = true.
Proof.
  rewrite ltb_spec. change (Prim2SF 0) with (S754_zero false). unfold SFltb.
  destruct (Prim2SF x) as [s | s | | s m e]; cbn; try discriminate;
    destruct s; try discriminate; reflexivity.
Qed.

(** What is positive is not [<= 0]: it passes the check of [calculate_bmi]. *)
Lemma positive_not_le (x : float) : (0 <? x) = true -> (x <=? 0) = false.
Proof.
  rewrite ltb_spec, leb_spec. change (Prim2SF 0) with (S754_zero false).
  unfold SFltb, SFleb.
  destruct (Prim2SF x) as [s | s | | s m e]; cbn; try discriminate;
    destruct s; try discriminate; reflexivity.
Qed.

(** A positive height in metres is not negative and no NaN. *)
Lemma metres_signed (height : float) :
  (0 <? height) = true -> signed false (Prim2SF (height / 100)) = true.
Proof.
  intros H. rewrite div_spec.
  assert (Hundred : exists m e, Prim2SF 100 = S754_finite false m e)
    by (eexists _, _; reflexivity).
  destruct Hundred as (m & e & ->).
  apply SFdiv_signed, positive_signed, H.
Qed.

(** Two positive finite floats that compare equal are the same. *)
Lemma SFeqb_finite (m1 m2 : positive) (e1 e2 : Z) :
  SFeqb (S754_finite false m1 e1) (S754_finite false m2 e2) = true ->
  S754_finite false m1 e1 = S754_finite false m2 e2.
Proof.
  unfold SFeqb, SFcompare.
  destruct (Z.compare_spec e1 e2) as [-> | L | L]; try discriminate.
  change (Pos.compare_cont Eq m1 m2) with (Pos.compare m1 m2).
  destruct (Pos.compare_spec m1 m2) as [-> | L | L]; try discriminate.
  reflexivity.
Qed.

Lemma eqb_one (x : float) : (x =? 1) = true -> x = 1.
Proof.
  rewrite FloatAxioms.eqb_spec. intros E. apply Prim2SF_inj. revert E.
  assert (One : exists m e, Prim2SF 1 = S754_finite false m e)
    by (eexists _, _; reflexivity).
  destruct One as (m1 & e1 & ->).
  destruct (Prim2SF x) as [s | s | | s m e].
  - discriminate.
  - destruct s; discriminate.
  - discriminate.
  - destruct s; [discriminate | ]. apply SFeqb_finite.
Qed.

(** For a positive height whose square in metres the libm neither takes
    to zero nor to infinity, the Python expression of the formula raises
    nothing: its special cases and its checks all pass, and its value is
    the plain float expression. *)
Lemma formula_evaluates (weight height : float) :
  PyFloat.pow2_exact_cases libm_pow2 ->
  (0 <? height) = true ->
  (libm_pow2 (height / 100) =? 0) = false ->
  is_infinity (libm_pow2 (height / 100)) = false ->
  spec_bmi libm_pow2 weight height = Ok (formula_bmi weight height).
Proof.
  intros (P0 & P1 & Pinf) H NZ NI.
  rewrite spec_bmi_cases. unfold formula_bmi.
  pose proof (metres_signed height H) as S.
  set (m := height / 100) in *.
  unfold PyFloat.pow2.
  rewrite is_nan_spec, is_infinity_spec.
  destruct (Prim2SF m) as [s | s | | s mm em] eqn:E; cbn in S; try discriminate;
    destruct s; try discriminate.
  - exfalso. assert (Z : m = 0) by (apply Prim2SF_inj; rewrite E; reflexivity).
    rewrite Z, P0 in NZ. discriminate.
  - exfalso. assert (Z : m = infinity) by (apply Prim2SF_inj; rewrite E; reflexivity).
    rewrite Z, Pinf in NI. discriminate.
  - assert (Z : (m =? 0) = false).
    { rewrite FloatAxioms.eqb_spec, E. reflexivity. }
    assert (L : (m <? 0) = false).
    { rewrite ltb_spec, E. reflexivity. }
    rewrite Z, L.
    destruct (m =? 1) eqn:One.
    + apply eqb_one in One. rewrite One, P1. reflexivity.
    + rewrite NI, NZ. reflexivity.
Qed.

(** C1: for a positive weight and a positive height whose square in metres
    is neither zero nor infinite, [round(weight / (height/100)^2, 2)] is
    what [calculate_bmi_process] returns and, from an idle application with
    these two entries, what pressing Calculate puts on display once the
    calculation thread and its callback have run, and what is in the
    record handed to the save thread. *)
Theorem bmi_matches_formula (now : string) (w : world) (weight height : float) :
  PyFloat.pow2_exact_cases libm_pow2 ->
  float_of_string (weight_var w) = Some weight ->
  float_of_string (height_var w) = Some height ->
  (0 <? weight) = true ->
  (0 <? height) = true ->
  (libm_pow2 (height / 100) =? 0) = false ->
  is_infinity (libm_pow2 (height / 100)) = false ->
  threads w = [] ->
  after_queue w = [] ->
  let bmi := formula_bmi weight height in
  let shown := run_event (run_thread now (exec calculate_bmi w)) in
  calculate_bmi_process libm_pow2 weight height = Some bmi /\
  bmi_result shown = Some bmi /\
  current_bmi shown = Some bmi /\
  fst (category_result shown) = Some (category_of bmi) /\
  dialogs shown = dialogs w /\
  threads shown = [SaveTask (record_of now weight height bmi (category_of bmi))] /\
  Py.getitem (record_of now weight height bmi (category_of bmi)) "bmi" = Ok (PFloat bmi).
Proof.
  intros Libm Ex Ey Pw Ph NZ NI T Q bmi shown.
  pose proof (formula_evaluates weight height Libm Ph NZ NI) as B. fold bmi in B.
  clearbody bmi. split.
  { rewrite calculate_bmi_process_spec, B. reflexivity. }
  assert (E1 : exec calculate_bmi w = accepted weight height w).
  { unfold exec.
    rewrite (calculate_bmi_accepts w weight height Ex Ey
               (positive_not_le weight Pw) (positive_not_le height Ph)).
    reflexivity. }
  assert (R1 : run_thread now (accepted weight height w)
               = calculated now weight height bmi
                   (set_status_label ("Calculating BMI...", snd (status_label w))
                      (set_progress true w))).
  { unfold run_thread, accepted, exec. destruct w; cbn in T |- *. subst.
    cbn. rewrite calculate_in_thread_run, B. reflexivity. }
  subst shown. rewrite E1, R1. clear E1 R1.
  unfold calculated, category_of.
  destruct (get_bmi_category bmi) as [[category color] message]. cbn [fst].
  unfold run_event, exec. destruct w; cbn in T, Q |- *. subst. cbn.
  repeat split.
Qed.

End Application.

(** ** A concrete run

    The libm squares exactly, the entries "70", "175" and "0" parse to
    those numbers, and a timestamp is kept as its text. *)

Module Demo.

Local Open Scope float_scope.

Definition square (x : float) : float := x * x.

Definition parse (s : string) : option float :=
  if String.eqb s "70" then Some 70
  else if String.eqb s "175" then Some 175
  else if String.eqb s "0" then Some 0
  else None.

Definition stamp : Type := string.

Definition fromiso (s : string) : result stamp := Ok s.

Definition minutes (d : stamp) : string := d.

Definition now : string := "2026-11-04T10:30:00.000000".

Definition record : pyval := record_of now 70 175 22.86 "Normal Weight".

(** The application started where no history file exists yet. *)
Definition start : world stamp := initial stamp None true.

Definition typed : world stamp :=
  set_height_var stamp "175" (set_weight_var stamp "70" start).

Definition clicked : world stamp := exec stamp (calculate_bmi parse stamp) typed.

Definition computed : world stamp :=
  exec stamp (run_task square stamp now (CalculateInThread 70 175))
    (set_threads stamp ([] ++ []) clicked).

Definition saved : world stamp :=
  exec stamp (run_task square stamp now (SaveTask record))
    (set_threads stamp ([] ++ []) computed).

Definition second : pyval :=
  record_of "2026-11-05T08:00:00.000000" 45 170 15.57 "Underweight".

(** The row of the history window for [record]. *)
Definition shown : row :=
  (now, PFloat 70, PFloat 175, PFloat 22.86, PStr "Normal Weight").

Lemma square_within_ulp : PyFloat.pow2_within_ulp square.
Proof. intros x. left. reflexivity. Defined.

Lemma square_exact_cases : PyFloat.pow2_exact_cases square.
Proof. repeat split. Defined.


End Demo.

(** ** The theorems at the concrete run *)

Local Open Scope float_scope.

Lemma category_partition_witness :
  is_nan 22.86 = false /\
  (category_of 22.86 = "Normal Weight" <-> (18.5 <=? 22.86) && (22.86 <? 25) = true).
Proof.
  split; [reflexivity | ].
  exact (proj1 (proj2 (category_partition 22.86 eq_refl))).
Defined.


Lemma concrete_scenarios_witness :
  PyFloat.pow2_within_ulp Demo.square /\
  exec Demo.stamp (_calculate_in_thread Demo.square Demo.stamp Demo.now 70 175) Demo.start
  = calculated Demo.stamp Demo.now 70 175 22.86 Demo.start.
Proof.
  split; [exact Demo.square_within_ulp | ].
  exact (proj1 (concrete_scenarios Demo.square Demo.stamp Demo.now Demo.start
                  Demo.square_within_ulp)).
Defined.

(** ** Runs at the edges

    The parser also reads "nan" and a height too small for its square;
    the history file is in turn read-only, unparseable, a JSON object, and
    a list with a record. *)

Module Edge.

Local Open Scope float_scope.

Definition parse (s : string) : option float :=
  if String.eqb s "nan" then Some nan
  else if String.eqb s "1e-200" then Some 1e-200
  else Demo.parse s.

Definition at_file (f : file) : world Demo.stamp := initial Demo.stamp (Some f) true.

Definition read_only : world Demo.stamp :=
  at_file (File true false (Holds (PList [Demo.record]))).

Definition unparseable : file := File true true Garbled.

Definition json_object : file := File true true (Holds (PDict [])).

Definition with_record : world Demo.stamp :=
  at_file (File true true (Holds (PList [Demo.record]))).

Definition entries (weight height : string) (w : world Demo.stamp) : world Demo.stamp :=
  set_height_var Demo.stamp height (set_weight_var Demo.stamp weight w).

Definition tiny_height : world Demo.stamp := entries "70" "1e-200" Demo.start.

Definition nan_weight : world Demo.stamp := entries "nan" "175" Demo.start.

Definition chart_open : world Demo.stamp :=
  set_chart_visible Demo.stamp true (entries "70" "175" with_record).

(** A record without any field. *)
Definition empty_record : pyval := PDict [].

(** Zero for the weight, beside a height of 175. *)
Definition zero_weight : world Demo.stamp := entries "0" "175" Demo.start.


(** Calculate pressed on [tiny_height], the thread and its callback run. *)
Definition failed : world Demo.stamp :=
  run_event Demo.stamp Demo.fromiso Demo.minutes
    (run_thread Demo.square Demo.stamp Demo.now
       (exec Demo.stamp (calculate_bmi parse Demo.stamp) tiny_height)).

(** Calculate pressed on [nan_weight]; the calculation thread, its callback
    and the save thread run. *)
Definition nan_saved : world Demo.stamp :=
  run_thread Demo.square Demo.stamp Demo.now
    (run_event Demo.stamp Demo.fromiso Demo.minutes
       (run_thread Demo.square Demo.stamp Demo.now
          (exec Demo.stamp (calculate_bmi parse Demo.stamp) nan_weight))).

End Edge.

(** ** A history longer than the views

    Twenty-three calculations a minute apart, for weights from 51 kg to
    73 kg at 175 cm, each record as [_calculate_in_thread] builds it. *)

Module Long.

Local Open Scope float_scope.

Definition digit (n : nat) : ascii := ascii_of_nat (48 + n).

(** The timestamp of the [k]-th calculation. *)
Definition stamp_of (k : nat) : string :=
  String.append "2026-11-04T10:"
    (String (digit (k / 10)) (String (digit (k mod 10)) ":00")).

Fixpoint weight_of (k : nat) : float :=
  match k with
  | O => 50
  | S n => weight_of n + 1
  end.

Definition bmi_of (k : nat) : float :=
  match calculate_bmi_process Demo.square (weight_of k) 175 with
  | Some bmi => bmi
  | None => nan
  end.

Definition entry (k : nat) : pyval :=
  record_of (stamp_of k) (weight_of k) 175 (bmi_of k) (category_of (bmi_of k)).

(** The records of calculations 1 to 23, oldest first. *)
Definition history : list pyval := map entry (seq 1 23).

(** The row of the history window for the [k]-th calculation. *)
Definition listed (k : nat) : row :=
  (stamp_of k, PFloat (weight_of k), PFloat 175, PFloat (bmi_of k),
   PStr (category_of (bmi_of k))).

(** The point of the chart for the [k]-th calculation. *)
Definition plotted (k : nat) : pyval := PFloat (bmi_of k).

(** The application over a file that holds the 23 records. *)
Definition loaded : world Demo.stamp :=
  Edge.at_file (File true true (Holds (PList history))).

End Long.

(** ** Runs on the long history, and runs that fail *)

Local Open Scope float_scope.

(** C1, as the specification states it, fails: 70 kg and 1e-200 cm are
    both positive, the libm is exact, and yet the square of the height in
    metres underflows to zero, the division raises, the processor answers
    [None], and the application shows "Calculation failed" and no BMI. *)
Lemma positive_input_without_bmi :
  (0 <? 70) = true /\ (0 <? 1e-200) = true /\
  Edge.parse (weight_var Demo.stamp Edge.tiny_height) = Some 70 /\
  Edge.parse (height_var Demo.stamp Edge.tiny_height) = Some 1e-200 /\
  calculate_bmi_process Demo.square 70 1e-200 = None /\
  bmi_result Demo.stamp Edge.failed = None /\
  current_bmi Demo.stamp Edge.failed = None /\
  threads Demo.stamp Edge.failed = [] /\
  dialogs Demo.stamp Edge.failed = [("Error", "Calculation failed")].
Proof. vm_compute. repeat split. Qed.

Lemma bmi_matches_formula_witness :
  formula_bmi Demo.square 70 175 = 22.86 /\
  bmi_result Demo.stamp
    (run_event Demo.stamp Demo.fromiso Demo.minutes
       (run_thread Demo.square Demo.stamp Demo.now
          (exec Demo.stamp (calculate_bmi Demo.parse Demo.stamp) Demo.typed)))
  = Some (formula_bmi Demo.square 70 175).
Proof.
  split; [vm_compute; reflexivity | ].
  pose proof (bmi_matches_formula Demo.square Demo.parse Demo.stamp Demo.fromiso
                Demo.minutes Demo.now Demo.typed 70 175 Demo.square_exact_cases
                eq_refl eq_refl eq_refl eq_refl eq_refl eq_refl eq_refl eq_refl) as H.
  cbv zeta in H. exact (proj1 (proj2 H)).
Defined.

(** C3: an entry of "nan" for the weight is no number and not positive,
    and [calculate_bmi] does not reject it: no dialog is shown, the
    calculation thread is started on NaN, a BMI of NaN is displayed and a
    record with it is appended to the history. *)
Theorem nan_entry_not_rejected :
  Edge.parse (weight_var Demo.stamp Edge.nan_weight) = Some nan /\
  (0 <? nan) = false /\
  (nan <=? 0) = false /\
  dialogs Demo.stamp
    (exec Demo.stamp (calculate_bmi Edge.parse Demo.stamp) Edge.nan_weight) = [] /\
  threads Demo.stamp
    (exec Demo.stamp (calculate_bmi Edge.parse Demo.stamp) Edge.nan_weight)
  = [CalculateInThread nan 175] /\
  bmi_result Demo.stamp Edge.nan_saved = Some nan /\
  dialogs Demo.stamp Edge.nan_saved = [] /\
  stored Demo.stamp Edge.nan_saved = [record_of Demo.now nan 175 nan "Severely Obese"].
Proof. vm_compute. repeat split. Qed.

(** C4, as the specification states it, fails on a history whose file is
    read-only: the save thread cannot open the file, logs the failure, and
    [load_history] returns the list as it was, which does not end in the
    record. *)
Lemma append_to_read_only_file :
  stored Demo.stamp Edge.read_only = [Demo.record] /\
  eval Demo.stamp (load_history Demo.stamp)
    (store_append Demo.square Demo.stamp Demo.now Demo.second Edge.read_only)
  = Ok (PList [Demo.record]) /\
  last [Demo.record] PNone <> Demo.second.
Proof.
  split; [vm_compute; reflexivity | ]. split; [vm_compute; reflexivity | ].
  cbn. discriminate.
Qed.

Lemma append_then_load_witness :
  stored Demo.stamp Edge.with_record = [Demo.record] /\
  eval Demo.stamp (load_history Demo.stamp)
    (store_append Demo.square Demo.stamp Demo.now Demo.second Edge.with_record)
  = Ok (PList [Demo.record; Demo.second]).
Proof.
  split; [reflexivity | ].
  exact (proj1 (append_then_load Demo.square Demo.stamp Demo.now Demo.second
                  Edge.with_record eq_refl)).
Defined.



Lemma views_show_last_records_witness :
  List.length Long.history = 23%nat /\
  canvas Demo.stamp (exec Demo.stamp (update_chart Demo.stamp Demo.fromiso) Long.loaded)
  = Some (map Long.stamp_of (seq 14 10), map Long.plotted (seq 14 10)) /\
  windows Demo.stamp
    (exec Demo.stamp
       (dispatch Demo.stamp Demo.fromiso Demo.minutes (DisplayHistory (PList Long.history)))
       Demo.start)
  = map Long.listed (seq 4 20) :: windows Demo.stamp Demo.start.
Proof.
  assert (S : stored_value Demo.stamp Long.loaded = PList Long.history) by reflexivity.
  assert (N : Long.history <> []) by (vm_compute; discriminate).
  assert (D : Py.comprehension (chart_date Demo.stamp Demo.fromiso)
                (Py.last_n 10 Long.history) = Ok (map Long.stamp_of (seq 14 10)))
    by (vm_compute; reflexivity).
  assert (B : Py.comprehension chart_bmi (Py.last_n 10 Long.history)
              = Ok (map Long.plotted (seq 14 10)))
    by (vm_compute; reflexivity).
  assert (R : Py.comprehension (history_row Demo.stamp Demo.fromiso Demo.minutes)
                (Py.last_n 20 Long.history) = Ok (map Long.listed (seq 4 20)))
    by (vm_compute; reflexivity).
  destruct (views_show_last_records Demo.stamp Demo.fromiso Demo.minutes
              Long.loaded Long.history S) as (Chart & _ & Listing & _).
  split; [reflexivity | ]. split.
  - exact (proj1 (Chart _ _ N D B)).
  - exact (proj1 (Listing _ Demo.start R)).
Defined.

Lemma history_window_order_witness :
  List.length Long.history = 23%nat /\
  windows Demo.stamp
    (exec Demo.stamp
       (_display_history Demo.stamp Demo.fromiso Demo.minutes (PList Long.history))
       Demo.start)
  = map Long.listed (seq 4 20) :: windows Demo.stamp Demo.start /\
  hd_error (map Long.listed (seq 4 20)) = Some (Long.listed 4) /\
  nth_error (map Long.listed (seq 4 20)) 19 = Some (Long.listed 23).
Proof.
  assert (R : Py.comprehension (history_row Demo.stamp Demo.fromiso Demo.minutes)
                (Py.last_n 20 Long.history) = Ok (map Long.listed (seq 4 20)))
    by (vm_compute; reflexivity).
  split; [reflexivity | ]. split; [ | split; reflexivity].
  exact (proj1 (proj2 (history_window_order Demo.stamp Demo.fromiso Demo.minutes
                         Long.history (map Long.listed (seq 4 20)) Demo.start R))).
Defined.

(** ** The further properties at the edges *)

Local Open Scope float_scope.

Lemma save_task_contained_witness :
  history_file Demo.stamp
    (exec Demo.stamp (save_task Demo.stamp Demo.second) Edge.read_only)
  = history_file Demo.stamp Edge.read_only.
Proof.
  exact (proj1 (proj2 (save_task_contained Demo.stamp Demo.second Edge.read_only eq_refl))).
Defined.

Lemma unparseable_file_overwritten_witness :
  history_file Demo.stamp
    (exec Demo.stamp (save_task Demo.stamp Demo.record) (Edge.at_file Edge.unparseable))
  = Some (File true true (Holds (PList [Demo.record]))).
Proof.
  exact (proj1 (unparseable_file_overwritten Demo.stamp Demo.record
                  (Edge.at_file Edge.unparseable) Edge.unparseable
                  eq_refl eq_refl (or_intror (or_intror eq_refl)))).
Defined.

Lemma non_list_blocks_appends_witness :
  history_file Demo.stamp
    (append_all Demo.stamp [Demo.record; Demo.second] (Edge.at_file Edge.json_object))
  = Some Edge.json_object.
Proof.
  refine (proj1 (non_list_blocks_appends Demo.stamp (PDict []) [Demo.record; Demo.second]
                   (Edge.at_file Edge.json_object) Edge.json_object
                   eq_refl eq_refl eq_refl _)).
  intros items. discriminate.
Defined.

Lemma only_save_threads_write_witness :
  can_create Demo.stamp Demo.saved = can_create Demo.stamp Demo.computed.
Proof.
  refine (proj1 (only_save_threads_write Demo.square Demo.parse Demo.stamp Demo.fromiso
                   Demo.minutes Demo.computed Demo.saved _)).
  apply (step_thread Demo.square Demo.parse Demo.stamp Demo.fromiso Demo.minutes Demo.now
           Demo.computed [] (SaveTask Demo.record) []).
  vm_compute. reflexivity.
Defined.

Lemma valid_input_accepted_witness :
  threads Demo.stamp (exec Demo.stamp (calculate_bmi Demo.parse Demo.stamp) Demo.typed)
  = (threads Demo.stamp Demo.typed ++ [CalculateInThread 70 175])%list.
Proof.
  exact (proj1 (proj2 (valid_input_accepted Demo.parse Demo.stamp Demo.typed 70 175
                         eq_refl eq_refl eq_refl eq_refl))).
Defined.

Lemma calculation_end_to_end_witness :
  bmi_result Demo.stamp
    (run_thread Demo.square Demo.stamp Demo.now
       (run_event Demo.stamp Demo.fromiso Demo.minutes
          (run_thread Demo.square Demo.stamp Demo.now
             (exec Demo.stamp (calculate_bmi Demo.parse Demo.stamp) Demo.typed))))
  = Some 22.86.
Proof.
  assert (B : spec_bmi Demo.square 70 175 = Ok 22.86) by (vm_compute; reflexivity).
  pose proof (calculation_end_to_end Demo.square Demo.parse Demo.stamp Demo.fromiso
                Demo.minutes Demo.now Demo.now Demo.typed 70 175 22.86
                eq_refl eq_refl eq_refl eq_refl eq_refl eq_refl B eq_refl) as H.
  cbv zeta in H. exact (proj1 (proj2 H)).
Defined.

Lemma failed_calculation_keeps_progress_witness :
  progress Demo.stamp
    (run_event Demo.stamp Demo.fromiso Demo.minutes
       (run_thread Demo.square Demo.stamp Demo.now
          (exec Demo.stamp (calculate_bmi Edge.parse Demo.stamp) Edge.tiny_height)))
  = true.
Proof.
  assert (B : spec_bmi Demo.square 70 1e-200 = Raise ZeroDivisionError)
    by (vm_compute; reflexivity).
  pose proof (failed_calculation_keeps_progress Demo.square Edge.parse Demo.stamp
                Demo.fromiso Demo.minutes Demo.now Edge.tiny_height 70 1e-200
                ZeroDivisionError eq_refl eq_refl eq_refl eq_refl eq_refl eq_refl B) as H.
  cbv zeta in H. exact (proj1 (proj2 H)).
Defined.

Lemma clear_keeps_pending_witness :
  threads Demo.stamp
    (exec Demo.stamp (clear_inputs Demo.stamp)
       (exec Demo.stamp (calculate_bmi Demo.parse Demo.stamp) Demo.typed))
  = [CalculateInThread 70 175].
Proof.
  assert (B : spec_bmi Demo.square 70 175 = Ok 22.86) by (vm_compute; reflexivity).
  pose proof (clear_keeps_pending Demo.square Demo.parse Demo.stamp Demo.fromiso
                Demo.minutes Demo.now Demo.typed 70 175 22.86
                eq_refl eq_refl eq_refl eq_refl eq_refl eq_refl B) as H.
  cbv zeta in H. exact (proj1 H).
Defined.

Lemma display_history_stops_at_bad_record_witness :
  exec Demo.stamp
    (dispatch Demo.stamp Demo.fromiso Demo.minutes
       (DisplayHistory (PList ([Demo.second] ++ Edge.empty_record :: [Demo.record]))))
    Demo.start
  = set_log Demo.stamp
      (log Demo.stamp Demo.start ++ [LogError "Exception in Tkinter callback" KeyError])
      (set_windows Demo.stamp ([Demo.shown] :: windows Demo.stamp Demo.start) Demo.start).
Proof.
  refine (display_history_stops_at_bad_record Demo.stamp Demo.fromiso Demo.minutes
            [Demo.second] [Demo.record] Edge.empty_record KeyError [Demo.shown]
            Demo.start _ eq_refl eq_refl).
  cbn. repeat constructor.
Defined.

Lemma chart_malformed_record_witness :
  canvas Demo.stamp
    (exec Demo.stamp (update_chart Demo.stamp Demo.fromiso)
       (Edge.at_file (File true true (Holds (PList [Edge.empty_record])))))
  = None.
Proof.
  refine (proj1 (proj2 (chart_malformed_record Demo.stamp Demo.fromiso
                          (Edge.at_file (File true true (Holds (PList [Edge.empty_record]))))
                          [Edge.empty_record] KeyError eq_refl _ (or_introl eq_refl)))).
  discriminate.
Defined.

Lemma category_monotone_witness :
  (band (category_of 22.86) <= band (category_of 33.95))%nat.
Proof. exact (category_monotone 22.86 33.95 eq_refl). Defined.

Lemma nan_weight_accepted_witness :
  threads Demo.stamp (exec Demo.stamp (calculate_bmi Edge.parse Demo.stamp) Edge.nan_weight)
  = (threads Demo.stamp Edge.nan_weight ++ [CalculateInThread nan 175])%list.
Proof.
  exact (proj1 (nan_weight_accepted Demo.square Edge.parse Demo.stamp Demo.now
                  Edge.nan_weight 175 eq_refl eq_refl eq_refl)).
Defined.

Lemma show_history_end_to_end_witness :
  windows Demo.stamp
    (run_event Demo.stamp Demo.fromiso Demo.minutes
       (run_thread Demo.square Demo.stamp Demo.now
          (exec Demo.stamp (show_history Demo.stamp) Edge.with_record)))
  = [Demo.shown] :: windows Demo.stamp Edge.with_record.
Proof.
  pose proof (show_history_end_to_end Demo.square Demo.parse Demo.stamp Demo.fromiso
                Demo.minutes Demo.now Edge.with_record [Demo.record] [Demo.shown]
                eq_refl eq_refl eq_refl eq_refl) as H.
  cbv zeta in H. exact (proj1 (proj2 H)).
Defined.

Lemma chart_refresh_before_save_witness :
  canvas Demo.stamp
    (run_event Demo.stamp Demo.fromiso Demo.minutes
       (run_event Demo.stamp Demo.fromiso Demo.minutes
          (run_thread Demo.square Demo.stamp Demo.now
             (exec Demo.stamp (calculate_bmi Demo.parse Demo.stamp) Edge.chart_open))))
  = Some ([Demo.now], [PFloat 22.86]).
Proof.
  assert (B : spec_bmi Demo.square 70 175 = Ok 22.86) by (vm_compute; reflexivity).
  assert (N : [Demo.record] <> []) by discriminate.
  pose proof (chart_refresh_before_save Demo.square Demo.parse Demo.stamp Demo.fromiso
                Demo.minutes Demo.now Edge.chart_open 70 175 22.86
                [Demo.record] [Demo.now] [PFloat 22.86]
                eq_refl eq_refl eq_refl eq_refl eq_refl eq_refl eq_refl B eq_refl N
                eq_refl eq_refl) as H.
  cbv zeta in H. exact (proj1 (proj2 H)).
Defined.

Lemma invalid_input_rejected_witness :
  (exists x, Demo.parse (weight_var Demo.stamp Edge.zero_weight) = Some x /\
             (x <=? 0) = true) /\
  Demo.parse (height_var Demo.stamp Edge.zero_weight) = Some 175 /\
  threads Demo.stamp
    (exec Demo.stamp (calculate_bmi Demo.parse Demo.stamp) Edge.zero_weight)
  = threads Demo.stamp Edge.zero_weight /\
  dialogs Demo.stamp
    (exec Demo.stamp (calculate_bmi Demo.parse Demo.stamp) Edge.zero_weight)
  = [("Error", "Please enter valid positive values")].
Proof.
  assert (H : exists x, Demo.parse (weight_var Demo.stamp Edge.zero_weight) = Some x /\
                        (x <=? 0) = true).
  { exists 0. split; reflexivity. }
  split; [exact H | ]. split; [reflexivity | ]. split; [ | reflexivity].
  exact (proj1 (proj2 (proj2
           (invalid_input_rejected Demo.parse Demo.stamp Edge.zero_weight
              (or_intror (or_intror (or_introl H))))))).
Defined.
